(** * Auto-apply engine of n8n-auto-apply (src/agents/auto_apply.py)

    A shallow embedding of the question-answer memory bank, the ATS detector,
    the job selection, the submission driver and the question answerer, with
    the properties the specification states about them.

    Python [str] values are modelled as Stdlib strings of 8-bit characters;
    [lower] acts on the ASCII letters and [strip] on the ASCII white space,
    which is what Python does on such strings. *)

From Stdlib Require Import String Ascii List ZArith Bool Lia.
From Stdlib Require Import PrimFloat SpecFloat FloatOps.
Import ListNotations.
Local Open Scope string_scope.

(* 0.7 and 0.3 denote the nearest binary64 values, as in Python. *)
Set Warnings "-inexact-float".

(* ================================================================== *)
(** ** Python string operations *)

Module PyStr.

(** [c.lower()] for one character. *)
Definition lower_ascii (c : ascii) : ascii :=
  let n := nat_of_ascii c in
  if andb (Nat.leb 65 n) (Nat.leb n 90) then ascii_of_nat (n + 32) else c.

(** [s.lower()]. *)
Fixpoint lower (s : string) : string :=
  match s with
  | EmptyString => EmptyString
  | String c s' => String (lower_ascii c) (lower s')
  end.

(** [c.isspace()]: tab, line feed, vertical tab, form feed, carriage return,
    the four separators 0x1c..0x1f and the space. *)
Definition is_space (c : ascii) : bool :=
  let n := nat_of_ascii c in
  orb (andb (Nat.leb 9 n) (Nat.leb n 13))
      (orb (andb (Nat.leb 28 n) (Nat.leb n 31)) (Nat.eqb n 32)).

(** [s.lstrip()]. *)
Fixpoint lstrip (s : string) : string :=
  match s with
  | EmptyString => EmptyString
  | String c s' => if is_space c then lstrip s' else s
  end.

(** [s.rstrip()]: a character is kept when it is not white space or when
    something is kept after it. *)
Fixpoint rstrip (s : string) : string :=
  match s with
  | EmptyString => EmptyString
  | String c s' =>
      match rstrip s' with
      | EmptyString => if is_space c then EmptyString else String c EmptyString
      | r => String c r
      end
  end.

(** [s.strip()]. *)
Definition strip (s : string) : string := rstrip (lstrip s).

(** [s.startswith(p)]. *)
Fixpoint starts_with (p s : string) : bool :=
  match p, s with
  | EmptyString, _ => true
  | String _ _, EmptyString => false
  | String a p', String b s' => andb (Ascii.eqb a b) (starts_with p' s')
  end.

(** [sub in s]. *)
Fixpoint contains (sub s : string) : bool :=
  match s with
  | EmptyString => starts_with sub EmptyString
  | String _ s' => orb (starts_with sub s) (contains sub s')
  end.

(** [sep.join(l)]. *)
Fixpoint join (sep : string) (l : list string) : string :=
  match l with
  | [] => EmptyString
  | [x] => x
  | x :: rest => x ++ sep ++ join sep rest
  end.

(** Truth value of a string, and of an optional string ([None] is Python's
    [None]): the empty string and [None] are false. *)
Definition truthy (s : string) : bool :=
  match s with EmptyString => false | _ => true end.

Definition truthy_opt (o : option string) : bool :=
  match o with Some s => truthy s | None => false end.

End PyStr.

(* ================================================================== *)
(** ** Python dictionaries: insertion-ordered, keyed by strings *)

Module PyDict.

Section Dict.
Context {V : Type}.

Definition dict := list (string * V).

(** [d.get(k)] / [k in d] / [d[k]]. *)
Fixpoint get (k : string) (d : dict) : option V :=
  match d with
  | [] => None
  | (k', v) :: d' => if String.eqb k k' then Some v else get k d'
  end.


(** [d[k] = v]: an existing key keeps its position, a new key goes last. *)
Fixpoint set (k : string) (v : V) (d : dict) : dict :=
  match d with
  | [] => [(k, v)]
  | (k', v') :: d' =>
      if String.eqb k k' then (k', v) :: d' else (k', v') :: set k v d'
  end.

End Dict.
Arguments dict : clear implicits.

End PyDict.

(* ================================================================== *)
(** ** QAMemoryBank *)

Module QAMemoryBank.
Import PyStr.

(** One value of [self.cache]. *)
Record entry := mkEntry {
  answer : string;
  context : string;
  use_count : Z
}.

(** One row appended to the "QA Memory" worksheet. *)
Record row := mkRow {
  row_question : string;
  row_answer : string;
  row_context : string;
  row_use_count : Z;
  row_last_used : string
}.

(** The memory bank: the cache and the worksheet behind it. *)
Record bank := mkBank {
  cache : PyDict.dict entry;
  sheet : list row
}.

Definition key_phrases : list string :=
  ["why"; "interest"; "experience"; "salary"; "start"; "location"].

(** [_similar_question]: some key phrase occurs in both questions. *)
Definition _similar_question (q1 q2 : string) : bool :=
  existsb (fun phrase => andb (contains phrase q1) (contains phrase q2)) key_phrases.

(** The loop over [self.cache.items()]: the first similar entry answers. *)
Fixpoint fuzzy_match (q_lower : string) (d : PyDict.dict entry) : option string :=
  match d with
  | [] => None
  | (cached_q, data) :: d' =>
      if _similar_question q_lower cached_q then Some (answer data)
      else fuzzy_match q_lower d'
  end.

(** [get_answer]. *)
Definition get_answer (b : bank) (question : string) : option string :=
  let q_lower := strip (lower question) in
  match PyDict.get q_lower (cache b) with
  | Some e => Some (answer e)
  | None => fuzzy_match q_lower (cache b)
  end.

(** [save_answer]. [appended] says whether the worksheet took the row (an
    error there is logged and swallowed); [now] is the clock's reading. *)
Definition save_answer (appended : bool) (now : string)
    (b : bank) (question answer context : string) : bank :=
  let cache' :=
    PyDict.set (strip (lower question)) (mkEntry answer context 1) (cache b) in
  if appended
  then mkBank cache' (sheet b ++ [mkRow question answer context 1 now])
  else mkBank cache' (sheet b).

(** The key [get_answer] looks a question up under and [save_answer]
    files it under. *)
Definition cache_key (question : string) : string := strip (lower question).

End QAMemoryBank.

(* ================================================================== *)
(** ** Exceptions and mutable state *)

Module Py.

(** The result of a call: a value, or a raised exception with its message. *)
Inductive outcome (A : Type) : Type :=
| Ok (a : A)
| Raise (e : string).
Arguments Ok {A} a.
Arguments Raise {A} e.

(** A computation over a mutable state [S]: the state it leaves is kept
    also when it raises, as with Python objects mutated before the error. *)
Definition M (S A : Type) : Type := S -> outcome A * S.

Definition ret {S A} (a : A) : M S A := fun s => (Ok a, s).

Definition raise {S A} (e : string) : M S A := fun s => (Raise e, s).

Definition bind {S A B} (m : M S A) (k : A -> M S B) : M S B :=
  fun s =>
    match m s with
    | (Ok a, s') => k a s'
    | (Raise e, s') => (Raise e, s')
    end.

(** [try: m except Exception as e: h e]. *)
Definition try_except {S A} (m : M S A) (h : string -> M S A) : M S A :=
  fun s =>
    match m s with
    | (Ok a, s') => (Ok a, s')
    | (Raise e, s') => h e s'
    end.

(** An awaited call of a collaborator whose result the environment fixes. *)
Definition await {S A} (o : outcome A) : M S A := fun s => (o, s).

Definition get {S} : M S S := fun s => (Ok s, s).

Definition modify {S} (f : S -> S) : M S unit := fun s => (Ok tt, f s).

(** [for x in l: body x]. *)
Fixpoint for_each {S A} (l : list A) (body : A -> M S unit) : M S unit :=
  match l with
  | [] => ret tt
  | x :: l' => bind (body x) (fun _ => for_each l' body)
  end.

Module Notations.
Notation "x <- m ;; k" := (bind m (fun x => k))
  (at level 61, m at next level, right associativity).
Notation "m ;;; k" := (bind m (fun _ => k))
  (at level 61, right associativity).
End Notations.

End Py.

(* ================================================================== *)
(** ** Spreadsheet cells and records *)

Module Sheet.
Import Py.

(** A cell of [get_all_records()]: gspread numericises what it can. *)
Inductive cell : Type :=
| CInt (z : Z)
| CFloat (f : float)
| CStr (s : string).

(** One record: column name to cell. *)
Definition record := PyDict.dict cell.

(** [record.get(k) == s] for a string literal [s]. *)
Definition cell_is (o : option cell) (s : string) : bool :=
  match o with
  | Some (CStr s') => String.eqb s' s
  | _ => false
  end.

(** [record[k]]. *)
Definition index {S} (r : record) (k : string) : M S cell :=
  match PyDict.get k r with
  | Some c => ret c
  | None => raise ("KeyError: " ++ k)
  end.

(** [record.get(k, default)]. *)
Definition get_default (r : record) (k : string) (default : cell) : cell :=
  match PyDict.get k r with
  | Some c => c
  | None => default
  end.

(** Decimal digits of a natural number, as [str(n)] prints them. *)
Fixpoint digits_fuel (fuel n : nat) (acc : string) : string :=
  match fuel with
  | O => acc
  | S fuel' =>
      let acc' := String (ascii_of_nat (48 + Nat.modulo n 10)) acc in
      if Nat.ltb n 10 then acc' else digits_fuel fuel' (Nat.div n 10) acc'
  end.

Definition str_of_nat (n : nat) : string := digits_fuel (S n) n EmptyString.

(** [str(z)] for an [int]. *)
Definition str_of_Z (z : Z) : string :=
  match z with
  | Z0 => "0"
  | Zpos p => str_of_nat (Pos.to_nat p)
  | Zneg p => "-" ++ str_of_nat (Pos.to_nat p)
  end.

End Sheet.

(* ================================================================== *)
(** ** ATS detector *)

Module Ats.
Import PyStr Py.

(** What [detect_ats] reads of a page: [page.url], and [page.content()],
    which may raise. *)
Record page := mkPage {
  page_url : string;
  page_content : outcome string
}.

(** [detect_ats]. *)
Definition detect_ats (p : page) : string :=
  let url := lower (page_url p) in
  if contains "ashbyhq.com" url then "ashby"
  else if orb (contains "greenhouse.io" url) (contains "boards.greenhouse" url)
  then "greenhouse"
  else if contains "myworkdayjobs.com" url then "workday"
  else if contains "lever.co" url then "lever"
  else if contains "bamboohr.com" url then "bamboohr"
  else
    match page_content p with
    | Ok content =>
        let content_lower := lower content in
        if andb (contains "ashby" content_lower) (contains "ashbyhq" content_lower)
        then "ashby"
        else if contains "greenhouse" content_lower then "greenhouse"
        else if contains "workday" content_lower then "workday"
        else "unknown"
    | Raise _ => "unknown"
    end.

(** The vendors of the specification's [atsType] enumeration. *)
Definition ats_enum : list string :=
  ["ashby"; "greenhouse"; "workday"; "lever"; "bamboohr"; "unknown"].

End Ats.

(* ================================================================== *)
(** ** Job selection *)

Module Jobs.
Import PyStr Py Sheet.
Import Py.Notations.

Definition is_digit (c : ascii) : bool :=
  let n := nat_of_ascii c in andb (Nat.leb 48 n) (Nat.leb n 57).

(** The digits a string starts with. *)
Fixpoint leading_digits (s : string) : string :=
  match s with
  | EmptyString => EmptyString
  | String c s' => if is_digit c then String c (leading_digits s') else EmptyString
  end.

(** [re.search(r'(\d+)', s)]: the first maximal run of digits, if any. *)
Fixpoint search_digits (s : string) : option string :=
  match s with
  | EmptyString => None
  | String c s' => if is_digit c then Some (leading_digits s) else search_digits s'
  end.

(** [int(ds)] for a string of digits. *)
Fixpoint int_of_digits (ds : string) (acc : Z) : Z :=
  match ds with
  | EmptyString => acc
  | String c ds' => int_of_digits ds' (10 * acc + Z.of_nat (nat_of_ascii c - 48))
  end.

(** [_parse_posted_time]. *)
Definition _parse_posted_time (time_str : string) : Z :=
  if contains "hour" time_str then 0
  else if contains "day" time_str then
    match search_digits time_str with
    | Some ds => int_of_digits ds 0
    | None => 1
    end
  else if contains "week" time_str then
    match search_digits time_str with
    | Some ds => int_of_digits ds 0 * 7
    | None => 7
    end
  else 30.

(** The binary64 value nearest to an integer (ties to even), as Python
    converts an [int] that meets a [float]. *)
Definition float_of_Z (z : Z) : float :=
  FloatOps.SF2Prim (SpecFloat.binary_normalize FloatOps.prec FloatOps.emax z 0 false).

Definition is_infinite (f : float) : bool :=
  orb (PrimFloat.eqb f PrimFloat.infinity) (PrimFloat.eqb f PrimFloat.neg_infinity).

(** One entry of [ready_jobs]. *)
Record job := mkJob {
  row : Z;
  data : record;
  priority : float
}.

(** Where [x] goes in a list already sorted by descending priority: before
    the first entry of strictly lower priority, so after its equals. *)
Fixpoint insert_desc (x : job) (l : list job) : list job :=
  match l with
  | [] => [x]
  | y :: l' =>
      if PrimFloat.ltb (priority y) (priority x) then x :: y :: l'
      else y :: insert_desc x l'
  end.

(** [l.sort(key=lambda x: x["priority"], reverse=True)]: a stable sort by
    descending key. On keys that [<] orders totally (no NaN) every stable
    sort returns this list. *)
Definition sort_desc (l : list job) : list job :=
  fold_left (fun acc x => insert_desc x acc) l [].

Section GetNextJob.

(** [float(s)] for a string cell; [None] stands for [ValueError]. *)
Variable float_of_str : string -> option float.

(** [float(record.get("Score", 0))]. *)
Definition float_of_cell {S} (c : cell) : M S float :=
  match c with
  | CInt z =>
      let f := float_of_Z z in
      if is_infinite f then raise "OverflowError: int too large to convert to float"
      else ret f
  | CFloat f => ret f
  | CStr s =>
      match float_of_str s with
      | Some f => ret f
      | None => raise "ValueError: could not convert string to float"
      end
  end.

(** [self._parse_posted_time(record.get("Posted Time", ""))]: the
    membership tests need a string. *)
Definition posted_days_of_cell {S} (c : cell) : M S Z :=
  match c with
  | CStr s => ret (_parse_posted_time s)
  | _ => raise "TypeError: argument of type is not iterable"
  end.

(** The priority computed for one record. *)
Definition priority_of (score : float) (posted_days : Z) : float :=
  (score * 0.7 + float_of_Z (10 - Z.min posted_days 10) * 0.3)%float.

(** The filter loop over [enumerate(records, start=2)]. *)
Fixpoint collect_ready (i : Z) (records : list record) : M (list job) unit :=
  match records with
  | [] => ret tt
  | record :: rest =>
      (if orb (cell_is (PyDict.get "Status" record) "unknown")
              (cell_is (PyDict.get "Status" record) "Ready")
       then
         score <- float_of_cell (get_default record "Score" (CInt 0)) ;;
         posted_days <- posted_days_of_cell (get_default record "Posted Time" (CStr "")) ;;
         modify (fun ready_jobs =>
                   (ready_jobs ++ [mkJob i record (priority_of score posted_days)])%list)
       else ret tt) ;;;
      collect_ready (i + 1) rest
  end.

(** [get_next_job]; [records] is what [get_all_records()] gives. Any
    exception is logged and answered with [None]. *)
Definition get_next_job (records : outcome (list record)) : option job :=
  match records with
  | Raise _ => None
  | Ok rs =>
      match collect_ready 2 rs [] with
      | (Raise _, _) => None
      | (Ok _, ready_jobs) =>
          match sort_desc ready_jobs with
          | [] => None
          | j :: _ => Some j
          end
      end
  end.

End GetNextJob.

End Jobs.

(* ================================================================== *)
(** ** Orchestrator: one application attempt *)

Module Orchestrator.
Import PyStr Py Sheet Ats.
Import Py.Notations.

(** The [result] dictionary of [apply_to_job]. *)
Record result := mkResult {
  success : bool;
  ats_type : string;
  error : option string;
  screenshot : option string
}.

(** What [apply_to_job] mutates: its [result] and
    [self.session_stats["unsupported_ats"]]. *)
Record app := mkApp {
  res : result;
  unsupported_ats : nat
}.

Definition set_success (b : bool) : M app unit :=
  modify (fun a =>
    mkApp (mkResult b (ats_type (res a)) (error (res a)) (screenshot (res a)))
          (unsupported_ats a)).

Definition set_ats_type (t : string) : M app unit :=
  modify (fun a =>
    mkApp (mkResult (success (res a)) t (error (res a)) (screenshot (res a)))
          (unsupported_ats a)).

Definition set_error (e : string) : M app unit :=
  modify (fun a =>
    mkApp (mkResult (success (res a)) (ats_type (res a)) (Some e) (screenshot (res a)))
          (unsupported_ats a)).

Definition set_screenshot (p : string) : M app unit :=
  modify (fun a =>
    mkApp (mkResult (success (res a)) (ats_type (res a)) (error (res a)) (Some p))
          (unsupported_ats a)).

Definition count_unsupported : M app unit :=
  modify (fun a => mkApp (res a) (S (unsupported_ats a))).

(** What the browser and the vendor fillers do during one attempt. *)
Record world := mkWorld {
  goto_domcontentloaded : outcome unit;
  goto_load : outcome unit;
  (** the settle delays and the content snippet after navigation *)
  settle : outcome unit;
  landing : page;
  apply_ashby_landing : outcome bool;
  (** the debug listing of the form elements *)
  debug_listing : outcome unit;
  easy_apply_button : outcome bool;
  apply_button : outcome bool;
  apply_link : outcome bool;
  (** the path [capture_screenshot] returns, empty on an error *)
  shot : string;
  (** the tab the click on Apply opens *)
  new_page : outcome page;
  new_page_loaded : outcome unit;
  apply_ashby_new : outcome bool;
  close_new_page : outcome unit
}.

(** The class defines none of [handle_easy_apply], [apply_greenhouse] and
    [apply_workday]: looking one up raises. *)
Definition handle_easy_apply : M app bool :=
  raise "AttributeError: 'LinkedInAutoApply' object has no attribute 'handle_easy_apply'".

Definition apply_greenhouse : M app bool :=
  raise "AttributeError: 'LinkedInAutoApply' object has no attribute 'apply_greenhouse'".

Definition apply_workday : M app bool :=
  raise "AttributeError: 'LinkedInAutoApply' object has no attribute 'apply_workday'".

(** [capture_screenshot(page, ...job_data['data']['Job ID']...)]: the call
    itself swallows its errors; indexing the record for the name may raise. *)
Definition capture_screenshot (w : world) (job : record) : M app string :=
  _ <- index job "Job ID" ;;
  ret (shot w).

(** The [try] block of [apply_to_job]. *)
Definition apply_to_job_try (w : world) (job : record) : M app unit :=
  _ <- index job "Job URL" ;;
  try_except (await (goto_domcontentloaded w)) (fun _ => await (goto_load w)) ;;;
  await (settle w) ;;;
  let initial_ats := detect_ats (landing w) in
  if String.eqb initial_ats "ashby" then
    set_ats_type "ashby" ;;;
    ok <- await (apply_ashby_landing w) ;;
    set_success ok
  else
    await (debug_listing w) ;;;
    easy <- await (easy_apply_button w) ;;
    if (easy : bool) then
      set_ats_type "linkedin_easy" ;;;
      ok <- handle_easy_apply ;;
      set_success ok
    else
      button <- await (apply_button w) ;;
      button <- (if (button : bool) then ret true else await (apply_link w)) ;;
      if negb button then
        _ <- capture_screenshot w job ;;
        set_error "No apply button found"
      else
        np <- await (new_page w) ;;
        await (new_page_loaded w) ;;;
        set_ats_type (detect_ats np) ;;;
        a <- get ;;
        (if String.eqb (ats_type (res a)) "ashby" then
           ok <- await (apply_ashby_new w) ;; set_success ok
         else if String.eqb (ats_type (res a)) "greenhouse" then
           ok <- apply_greenhouse ;; set_success ok
         else if String.eqb (ats_type (res a)) "workday" then
           ok <- apply_workday ;; set_success ok
         else
           set_error ("Unsupported ATS: " ++ ats_type (res a)) ;;;
           count_unsupported) ;;;
        a <- get ;;
        (if negb (success (res a)) then
           p <- capture_screenshot w job ;; set_screenshot p
         else ret tt) ;;;
        await (close_new_page w)
  .

(** [apply_to_job]: the result is returned also after an exception, unless
    the handler itself raises. *)
Definition apply_to_job (w : world) (job : record) : M app result :=
  try_except (apply_to_job_try w job)
    (fun e =>
       set_error e ;;;
       p <- capture_screenshot w job ;;
       set_screenshot p) ;;;
  a <- get ;;
  ret (res a).

(** The state [apply_to_job] starts from: a fresh [result]. *)
Definition fresh (unsupported : nat) : app :=
  mkApp (mkResult false "unknown" None None) unsupported.

(** The values [result["ats_type"]] takes: the enumeration and the marker
    of LinkedIn's own Easy Apply flow. *)
Definition ats_values : list string := "linkedin_easy" :: ats_enum.

Definition ats_ok (a : app) : Prop := In (ats_type (res a)) ats_values.

End Orchestrator.

(* ================================================================== *)
(** ** Submission driver: the submit stage of [apply_ashby] *)

Module Driver.
Import PyStr Py Sheet.
Import Py.Notations.

(** The four click strategies, in the order of the source. *)
Inductive strategy : Type :=
| NormalClick
| ForceClick
| JsClick
| DoubleClick.

(** What the driver does to the page and to the screenshot directory. *)
Inductive event : Type :=
| Clicked (s : strategy)
| Screenshot (label : string).

(** The page as the driver sees it: [page.url], and the log of its actions. *)
Record drv := mkDrv {
  url : string;
  trace : list event
}.

(** A submit control, as the page reports it. *)
Record button := mkButton {
  inner_text : outcome string;
  scroll_into_view : outcome unit;
  is_visible : outcome bool;
  is_enabled : outcome bool;
  (** [get_attribute("disabled")]: [None] when the attribute is absent *)
  disabled_attr : outcome (option string)
}.

(** What the page does during the submit stage. *)
Record world := mkWorld {
  (** form filling and question handling, before the submit stage *)
  filled : outcome unit;
  settle : outcome unit;
  query_selector : string -> outcome (option button);
  debug_form_fields : outcome unit;
  (** the scan for validation errors when the control is not ready *)
  blocked_scan : outcome unit;
  (** a click by one strategy, with its settle delay: whether it raises,
      and the page's URL afterwards *)
  click : strategy -> outcome unit * string;
  (** [page.query_selector(sel) is not None] for the success markers *)
  marker_present : string -> outcome bool;
  (** the scan for error messages after a failed submission *)
  error_scan : outcome unit
}.

(** The double quote character inside a selector. *)
Definition dq : string := String (ascii_of_nat 34) EmptyString.

Definition submit_selectors : list string :=
  [ "button:has-text(" ++ dq ++ "Submit Application" ++ dq ++ ")";
    "button[type=" ++ dq ++ "submit" ++ dq ++ "]";
    "input[type=" ++ dq ++ "submit" ++ dq ++ "]";
    "button:has-text(" ++ dq ++ "Submit" ++ dq ++ ")";
    "[role=" ++ dq ++ "button" ++ dq ++ "]:has-text(" ++ dq ++ "Submit" ++ dq ++ ")" ].

Definition success_markers : list string :=
  [ "text*=" ++ dq ++ "thank you" ++ dq;
    "text*=" ++ dq ++ "received" ++ dq;
    "text*=" ++ dq ++ "submitted" ++ dq;
    "text*=" ++ dq ++ "application sent" ++ dq;
    "[class*=" ++ dq ++ "success" ++ dq ++ "]";
    "[class*=" ++ dq ++ "confirmation" ++ dq ++ "]";
    "text*=" ++ dq ++ "your application was successfully submitted" ++ dq ].

(** [capture_screenshot(page, f"<label>_{job_data['data']['Job ID']}")]. *)
Definition capture_screenshot (job : record) (label : string) : M drv unit :=
  _ <- index job "Job ID" ;;
  modify (fun d => mkDrv (url d) (trace d ++ [Screenshot label])).

(** The loop over [submit_selectors]: the first selector that finds a
    control wins, and its text is read for the log. *)
Fixpoint find_submit (w : world) (selectors : list string) : M drv (option button) :=
  match selectors with
  | [] => ret None
  | selector :: rest =>
      found <- await (query_selector w selector) ;;
      match found with
      | Some b => _ <- await (inner_text b) ;; ret (Some b)
      | None => find_submit w rest
      end
  end.

(** The click of one strategy: the page moves to the URL the world gives,
    and the click is logged, also when it raises. *)
Definition do_click (w : world) (s : strategy) : M drv unit :=
  fun d => (fst (click w s), mkDrv (snd (click w s)) (trace d ++ [Clicked s])).

(** One strategy block: skipped once [submission_successful] holds; a raised
    error leaves the flag as it was. *)
Definition attempt (w : world) (s : strategy) (pre_submit_url : string)
    (submission_successful : bool) : M drv bool :=
  if submission_successful then ret true
  else
    try_except
      (do_click w s ;;;
       d <- get ;;
       ret (negb (String.eqb (url d) pre_submit_url)))
      (fun _ => ret false).

(** The four blocks, in the order of the source. *)
Definition escalate (w : world) (pre_submit_url : string) : M drv bool :=
  ok <- attempt w NormalClick pre_submit_url false ;;
  ok <- attempt w ForceClick pre_submit_url ok ;;
  ok <- attempt w JsClick pre_submit_url ok ;;
  attempt w DoubleClick pre_submit_url ok.

(** The page queries of [success_indicators], all evaluated, in order. *)
Fixpoint markers (w : world) (sels : list string) : M drv (list bool) :=
  match sels with
  | [] => ret []
  | sel :: rest =>
      b <- await (marker_present w sel) ;;
      bs <- markers w rest ;;
      ret (b :: bs)
  end.

(** The submit stage: from the settle delay before the submit selectors to
    the verdict. *)
Definition submit_stage (w : world) (job : record) : M drv bool :=
  await (settle w) ;;;
  submit_button <- find_submit w submit_selectors ;;
  match submit_button with
  | None =>
      await (debug_form_fields w) ;;;
      capture_screenshot job "no_submit_btn" ;;;
      ret false
  | Some b =>
      await (scroll_into_view b) ;;;
      visible <- await (is_visible b) ;;
      enabled <- await (is_enabled b) ;;
      disabled <- await (disabled_attr b) ;;
      if orb (negb visible) (orb (negb enabled) (truthy_opt disabled)) then
        await (blocked_scan w) ;;;
        capture_screenshot job "submit_blocked" ;;;
        ret false
      else
        d <- get ;;
        let pre_submit_url := url d in
        _ <- escalate w pre_submit_url ;;
        d <- get ;;
        let final_url := lower (url d) in
        page_signals <- markers w success_markers ;;
        let success_indicators :=
          ([ contains "thank" final_url; contains "success" final_url;
             contains "confirmation" final_url; contains "submitted" final_url ]
           ++ page_signals)%list in
        if existsb (fun b => b) success_indicators then
          capture_screenshot job "success" ;;;
          ret true
        else
          await (error_scan w) ;;;
          capture_screenshot job "submission_failed" ;;;
          ret false
  end.

(** [apply_ashby]: its [try] block ends with the submit stage; any exception
    is answered with an error screenshot and [False]. *)
Definition apply_ashby (w : world) (job : record) : M drv bool :=
  try_except
    (await (filled w) ;;; submit_stage w job)
    (fun _ => capture_screenshot job "error" ;;; ret false).

(** The strategies a run attempted, in order. *)
Definition clicks (t : list event) : list strategy :=
  flat_map (fun e => match e with Clicked s => [s] | Screenshot _ => [] end) t.

Definition screenshots (t : list event) : list string :=
  flat_map (fun e => match e with Clicked _ => [] | Screenshot l => [l] end) t.

(** The fixed order of the strategies. *)
Definition order : list strategy := [NormalClick; ForceClick; JsClick; DoubleClick].

Definition rank (s : strategy) : nat :=
  match s with NormalClick => 0 | ForceClick => 1 | JsClick => 2 | DoubleClick => 3 end.

(** The strategies tried before [s]. *)
Definition earlier (s : strategy) : list strategy := firstn (rank s) order.

(** The signal that ends the escalation: the strategy completed without an
    error and the URL read after it differs from the URL before the
    submission. *)
Definition observed_change (w : world) (pre_submit_url : string) (s : strategy) : bool :=
  match click w s with
  | (Ok _, post) => negb (String.eqb post pre_submit_url)
  | (Raise _, _) => false
  end.

(** The strategies of a list up to and including the first one with an
    observed change. *)
Fixpoint until_change (w : world) (pre_submit_url : string) (l : list strategy)
    : list strategy :=
  match l with
  | [] => []
  | s :: rest =>
      s :: (if observed_change w pre_submit_url s then []
            else until_change w pre_submit_url rest)
  end.

End Driver.

(* ================================================================== *)
(** ** Question answerer: [handle_all_questions] *)

Module Answerer.
Import PyStr Py Sheet QAMemoryBank.
Import Py.Notations.

(** What one call of the chat-completions client does: it raises, or it
    answers with a message whose content may be [None]. *)
Inductive llm_outcome : Type :=
| LlmError (e : string)
| LlmContent (content : option string).

(** The collaborators behind the answerer: the LLM by invocation number,
    the worksheet (does it take the n-th appended row) and the clock. *)
Record collaborators := mkCollab {
  llm : nat -> llm_outcome;
  sheet_appends : nat -> bool;
  clock : nat -> string
}.

(** What the answerer does to the page. *)
Inductive action : Type :=
| Fill (question answer : string)
| SelectOption (question answer : string)
| CheckRadio (question answer : string).

(** The answerer's mutable state: [self.qa_memory], the number of LLM
    invocations and of [save_answer] calls so far, and the page actions. *)
Record qa := mkQA {
  memory : bank;
  llm_calls : nat;
  save_calls : nat;
  page_log : list action
}.

(** [fallback_answer]. *)
Definition fallback_answer (question : string) : string :=
  let q_lower := lower question in
  if andb (contains "why" q_lower)
          (orb (contains "interested" q_lower) (contains "apply" q_lower))
  then "I'm excited about this role because it aligns perfectly with my experience in product management and my passion for building innovative solutions. The opportunity to contribute to your team's mission while growing my skills in this area is exactly what I'm looking for."
  else if orb (contains "salary" q_lower) (contains "compensation" q_lower)
  then "I'm open to discussing compensation based on the full scope of the role and total compensation package. I'm confident we can find a mutually beneficial arrangement."
  else if orb (contains "start" q_lower) (contains "available" q_lower)
  then "I can start within 2-3 weeks of accepting an offer, allowing time for a smooth transition."
  else if orb (contains "visa" q_lower) (contains "authorization" q_lower)
  then "I am authorized to work in the EU (Germany) and am exploring opportunities that may offer visa sponsorship for other locations."
  else "I would be happy to discuss this further during the interview process.".

Section WithCollaborators.

Variable w : collaborators.

(** [resp = await ...create(...); resp.choices[0].message.content.strip()]:
    one invocation of the LLM, counted whether or not it raises. *)
Definition ask_llm : M qa string :=
  fun s =>
    let s' := mkQA (memory s) (S (llm_calls s)) (save_calls s) (page_log s) in
    match llm w (llm_calls s) with
    | LlmError e => (Raise e, s')
    | LlmContent None =>
        (Raise "AttributeError: 'NoneType' object has no attribute 'strip'", s')
    | LlmContent (Some content) => (Ok (strip content), s')
    end.

(** [self.qa_memory.save_answer(key, answer, context)]. *)
Definition save (key answer context : string) : M qa unit :=
  modify (fun s =>
    mkQA (save_answer (sheet_appends w (save_calls s)) (clock w (save_calls s))
                      (memory s) key answer context)
         (llm_calls s) (S (save_calls s)) (page_log s)).

Definition log (a : action) : M qa unit :=
  modify (fun s => mkQA (memory s) (llm_calls s) (save_calls s) (page_log s ++ [a])).

(** The answer of a free-text question: memory first, then the LLM, then
    the canned fallback; a fresh answer is saved. [job] is the text
    "company - title". *)
Definition resolve_text (job question_label : string) : M qa string :=
  let mem_key := strip (lower question_label) in
  s <- get ;;
  let answer := get_answer (memory s) mem_key in
  if truthy_opt answer then ret (match answer with Some a => a | None => "" end)
  else
    answer <- try_except ask_llm (fun _ => ret (fallback_answer question_label)) ;;
    save mem_key answer job ;;;
    ret answer.

(** The loop matching the LLM's reply against the options: the first
    option that contains the reply or is contained in it, ignoring case. *)
Fixpoint match_choice (candidate : string) (options : list string) : option string :=
  match options with
  | [] => None
  | txt :: rest =>
      if orb (contains (lower candidate) (lower txt))
             (contains (lower txt) (lower candidate))
      then Some txt
      else match_choice candidate rest
  end.

(** [options[0]]. *)
Definition first_option (options : list string) : M qa string :=
  match options with
  | txt :: _ => ret txt
  | [] => raise "IndexError: list index out of range"
  end.

(** The answer of a choice question (dropdown or radio group). *)
Definition resolve_choice (job question_label : string) (options : list string)
    : M qa string :=
  let opt_key := strip (lower question_label) ++ "||" ++ join "|" options in
  s <- get ;;
  let answer_text := get_answer (memory s) opt_key in
  if truthy_opt answer_text
  then ret (match answer_text with Some a => a | None => "" end)
  else
    ai_choice <- try_except
                   (candidate <- ask_llm ;; ret (match_choice candidate options))
                   (fun _ => ret None) ;;
    ai_choice <- (if truthy_opt ai_choice
                  then ret (match ai_choice with Some a => a | None => "" end)
                  else first_option options) ;;
    save opt_key ai_choice job ;;;
    ret ai_choice.

(** The answer the LLM step of a free-text question ends with: the
    stripped content, or the canned answer when the call fails. *)
Definition text_reply (question_label : string) (s : qa) : string :=
  match llm w (llm_calls s) with
  | LlmContent (Some content) => strip content
  | _ => fallback_answer question_label
  end.

(** The answer the LLM step of a choice question ends with: the matched
    option, or the first option. *)
Definition choice_reply (first : string) (options : list string) (s : qa) : string :=
  match llm w (llm_calls s) with
  | LlmContent (Some content) =>
      match match_choice (strip content) options with
      | Some txt => if truthy txt then txt else first
      | None => first
      end
  | _ => first
  end.

(** The state after a fresh answer was saved. *)
Definition saved (key answer job : string) (s : qa) : qa :=
  mkQA (save_answer (sheet_appends w (save_calls s)) (clock w (save_calls s))
                    (memory s) key answer job)
       (S (llm_calls s)) (S (save_calls s)) (page_log s).

(** Whether a call of the LLM yields no usable content: it raised, or the
    message had no content to strip. *)
Definition llm_fails (o : llm_outcome) : bool :=
  match o with
  | LlmContent (Some _) => false
  | _ => true
  end.

(** An element's text: [query_selector] may raise or find nothing, and
    [inner_text()] of what it finds may raise. *)
Definition found_text := outcome (option (outcome string)).

Record text_input := mkTextInput {
  input_value : outcome string;
  (** [scroll_into_view_if_needed()] and [fill(answer)] *)
  fill : outcome unit
}.

Record text_container := mkTextContainer {
  t_label : found_text;
  t_input : outcome (option text_input)
}.

Record option_el := mkOption {
  o_text : outcome string;
  o_disabled : outcome (option string)
}.

Record select_el := mkSelect {
  s_options : outcome (list option_el);
  (** [scroll_into_view_if_needed()] and [select_option(...)] *)
  s_select : outcome unit
}.

Record dropdown_container := mkDropdown {
  d_label : found_text;
  d_select : outcome (option select_el)
}.

Record radio_el := mkRadio {
  r_id : outcome (option string);
  (** the page's [label[for=id]] *)
  r_label : found_text;
  r_value : outcome (option string);
  r_aria_label : outcome (option string);
  (** [scroll_into_view_if_needed()] and [check()] *)
  r_check : outcome unit
}.

Record radio_container := mkRadioContainer {
  c_legend : found_text;
  c_label : found_text;
  c_radios : outcome (list radio_el)
}.

(** What the three [query_selector_all] calls of the handler return. *)
Record page := mkPage {
  text_containers : outcome (list text_container);
  dropdown_containers : outcome (list dropdown_container);
  radio_containers : outcome (list radio_container)
}.

(** [(await el.inner_text()).strip()] of a found element, [None] when
    nothing was found. *)
Definition stripped_text (f : found_text) : M qa (option string) :=
  el <- await f ;;
  match el with
  | None => ret None
  | Some t => txt <- await t ;; ret (Some (strip txt))
  end.

(** The body of the free-text loop; ending early is [continue]. *)
Definition handle_text (job : string) (c : text_container) : M qa unit :=
  label <- stripped_text (t_label c) ;;
  match label with
  | None => ret tt
  | Some question_label =>
      if negb (truthy question_label) then ret tt
      else
        input_el <- await (t_input c) ;;
        match input_el with
        | None => ret tt
        | Some input =>
            existing_val <- await (input_value input) ;;
            if andb (truthy existing_val) (truthy (strip existing_val)) then ret tt
            else
              answer <- resolve_text job question_label ;;
              await (fill input) ;;;
              log (Fill question_label answer)
        end
  end.

(** The list comprehension over the [option] elements. *)
Fixpoint option_texts (opts : list option_el) : M qa (list string) :=
  match opts with
  | [] => ret []
  | opt :: rest =>
      txt <- await (o_text opt) ;;
      keep <- (if truthy (strip txt)
               then d <- await (o_disabled opt) ;; ret (negb (truthy_opt d))
               else ret false) ;;
      texts <- option_texts rest ;;
      ret (if (keep : bool) then strip txt :: texts else texts)
  end.

(** The body of the dropdown loop. *)
Definition handle_dropdown (job : string) (c : dropdown_container) : M qa unit :=
  label <- stripped_text (d_label c) ;;
  match label with
  | None => ret tt
  | Some question_label =>
      if negb (truthy question_label) then ret tt
      else
        select_el <- await (d_select c) ;;
        match select_el with
        | None => ret tt
        | Some sel =>
            opts <- await (s_options sel) ;;
            texts <- option_texts opts ;;
            match texts with
            | [] => ret tt
            | _ =>
                answer_text <- resolve_choice job question_label texts ;;
                await (s_select sel) ;;;
                log (SelectOption question_label answer_text)
            end
        end
  end.

(** The loop gathering the [(input, label)] pairs of a radio group. *)
Fixpoint radio_options (radios : list radio_el) : M qa (list (radio_el * string)) :=
  match radios with
  | [] => ret []
  | r :: rest =>
      rid <- await (r_id r) ;;
      this <- (if truthy_opt rid then
                 lbl <- stripped_text (r_label r) ;;
                 ret (match lbl with Some txt => [(r, txt)] | None => [] end)
               else
                 value <- await (r_value r) ;;
                 val <- (if truthy_opt value then ret value else await (r_aria_label r)) ;;
                 ret (match val with
                      | Some v => if truthy v then [(r, strip v)] else []
                      | None => []
                      end)) ;;
      others <- radio_options rest ;;
      ret (this ++ others)%list
  end.

(** The loop that checks the first radio whose text is the answer. *)
Fixpoint check_matching (question_label answer_text : string)
    (options : list (radio_el * string)) : M qa unit :=
  match options with
  | [] => ret tt
  | (radio_el, txt) :: rest =>
      if String.eqb txt answer_text then
        await (r_check radio_el) ;;;
        log (CheckRadio question_label answer_text)
      else check_matching question_label answer_text rest
  end.

(** The body of the radio-group loop. *)
Definition handle_radio (job : string) (c : radio_container) : M qa unit :=
  legend <- stripped_text (c_legend c) ;;
  label <- (match legend with
            | Some txt => ret (Some txt)
            | None => stripped_text (c_label c)
            end) ;;
  if negb (truthy_opt label) then ret tt
  else
    let question_label := match label with Some l => l | None => "" end in
    radios <- await (c_radios c) ;;
    options <- radio_options radios ;;
    match options with
    | [] => ret tt
    | _ =>
        let opts := map snd options in
        answer_text <- resolve_choice job question_label opts ;;
        check_matching question_label answer_text options
    end.

(** [str(cell)] inside an f-string; [str_of_float] is Python's. *)
Variable str_of_float : float -> string.

Definition str_of_cell (c : cell) : string :=
  match c with
  | CInt z => str_of_Z z
  | CFloat f => str_of_float f
  | CStr s => s
  end.

(** [handle_all_questions]: every loop body runs under its own
    [try ... except Exception: continue]. *)
Definition handle_all_questions (p : page) (job : record) : M qa unit :=
  company <- index job "Company" ;;
  title <- index job "Title" ;;
  let context := str_of_cell company ++ " - " ++ str_of_cell title in
  containers <- await (text_containers p) ;;
  for_each containers
    (fun c => try_except (handle_text context c) (fun _ => ret tt)) ;;;
  containers <- await (dropdown_containers p) ;;
  for_each containers
    (fun c => try_except (handle_dropdown context c) (fun _ => ret tt)) ;;;
  containers <- await (radio_containers p) ;;
  for_each containers
    (fun c => try_except (handle_radio context c) (fun _ => ret tt)).

End WithCollaborators.

End Answerer.

(* ================================================================== *)
(** ** Inputs of the specification's scenarios *)

Module Scenarios.
Import Py Sheet.

(** A ready job posted two days ago, scored 8. *)
Definition job_two_days : record :=
  [("Status", CStr "Ready"); ("Score", CInt 8); ("Posted Time", CStr "2 days ago")].

(** A ready job posted three weeks ago, scored 9. *)
Definition job_three_weeks : record :=
  [("Status", CStr "Ready"); ("Score", CInt 9); ("Posted Time", CStr "3 weeks ago")].

(** A LinkedIn page that offers Easy Apply. *)
Definition easy_apply_world : Orchestrator.world :=
  Orchestrator.mkWorld (Ok tt) (Ok tt) (Ok tt)
          (Ats.mkPage "https://www.linkedin.com/jobs/view/4012345678" (Ok "<html></html>"))
          (Ok false) (Ok tt) (Ok true) (Ok false) (Ok false)
          "data/apply_screenshots/4012345678_20250101_120000.png"
          (Raise "no new page") (Ok tt) (Ok false) (Ok tt).

Definition easy_apply_job : record :=
  [("Job URL", CStr "https://www.linkedin.com/jobs/view/4012345678");
   ("Job ID", CInt 4012345678)].

(** What [apply_to_job] returns there: the call of the missing
    [handle_easy_apply] raised after the type was set. *)
Definition easy_apply_result : Orchestrator.result :=
  Orchestrator.mkResult false "linkedin_easy"
    (Some "AttributeError: 'LinkedInAutoApply' object has no attribute 'handle_easy_apply'")
    (Some "data/apply_screenshots/4012345678_20250101_120000.png").

(** The application form before submission. *)
Definition form_url : string := "https://jobs.ashbyhq.com/acme/4f1c/application".

Definition ashby_job : record :=
  [("Job ID", CInt 4012345678); ("Company", CStr "Acme"); ("Title", CStr "Product Manager")].

(** A submit control that is visible and enabled. *)
Definition ready_button : Driver.button :=
  Driver.mkButton (Ok "Submit Application") (Ok tt) (Ok true) (Ok true) (Ok None).

(** A page whose normal click times out waiting for the navigation it has
    started: the click raises although the URL has changed. *)
Definition raising_click_world : Driver.world :=
  Driver.mkWorld (Ok tt) (Ok tt)
    (fun _ => Ok (Some ready_button))
    (Ok tt) (Ok tt)
    (fun s =>
       match s with
       | Driver.NormalClick =>
           (Raise "TimeoutError: waiting for scheduled navigations to finish",
            "https://jobs.ashbyhq.com/acme/4f1c/thanks")
       | _ => (Ok tt, "https://jobs.ashbyhq.com/acme/4f1c/thanks")
       end)
    (fun _ => Ok false) (Ok tt).

(** A page whose submit control answers to the script click only. *)
Definition script_only_world : Driver.world :=
  Driver.mkWorld (Ok tt) (Ok tt)
    (fun _ => Ok (Some ready_button))
    (Ok tt) (Ok tt)
    (fun s =>
       match s with
       | Driver.NormalClick => (Ok tt, form_url)
       | Driver.ForceClick => (Ok tt, form_url)
       | _ => (Ok tt, "https://jobs.ashbyhq.com/acme/4f1c/thanks")
       end)
    (fun _ => Ok false) (Ok tt).

(** A control found by the last submit selector only, a [div] in the role
    of a button written with a bare [disabled] attribute: the page reports
    it visible and enabled, and the attribute's value is the empty string. *)
Definition inert_button : Driver.button :=
  Driver.mkButton (Ok "Submit") (Ok tt) (Ok true) (Ok true) (Ok (Some "")).

Definition inert_world : Driver.world :=
  Driver.mkWorld (Ok tt) (Ok tt)
    (fun selector =>
       if String.eqb selector (last Driver.submit_selectors "")
       then Ok (Some inert_button) else Ok None)
    (Ok tt) (Ok tt)
    (fun _ => (Ok tt, form_url))
    (fun _ => Ok false) (Ok tt).

(** A memory that holds one answer, and a question that shares the phrase
    "why" with the remembered one. *)
Definition why_bank : QAMemoryBank.bank :=
  QAMemoryBank.mkBank
    [("why this role?", QAMemoryBank.mkEntry "Because." "Acme - Product Manager" 1)] [].

Definition why_question : string := "Why do you want to work here?".

Definition empty_bank : QAMemoryBank.bank := QAMemoryBank.mkBank [] [].

Definition start (b : QAMemoryBank.bank) : Answerer.qa := Answerer.mkQA b 0 0 [].

(** An LLM that answers every prompt with white space only. *)
Definition blank_llm : Answerer.collaborators :=
  Answerer.mkCollab (fun _ => Answerer.LlmContent (Some "  "))
                    (fun _ => true) (fun _ => "2025-01-01T12:00:00").

(** An LLM whose every call raises. *)
Definition failing_llm : Answerer.collaborators :=
  Answerer.mkCollab (fun _ => Answerer.LlmError "APIConnectionError")
                    (fun _ => true) (fun _ => "2025-01-01T12:00:00").

(** An LLM whose reply names none of the options offered. *)
Definition vague_llm : Answerer.collaborators :=
  Answerer.mkCollab (fun _ => Answerer.LlmContent (Some "It depends on the offer."))
                    (fun _ => true) (fun _ => "2025-01-01T12:00:00").

Definition relocation_question : string := "Are you willing to relocate?".

Definition yes_no : list string := ["Yes"; "No"].

(** A page whose first listing of question containers raises. *)
Definition broken_page : Answerer.page :=
  Answerer.mkPage (Raise "Error: Execution context was destroyed")
                  (Ok []) (Ok []).

(** A page with one free-text question and one dropdown. *)
Definition two_question_page : Answerer.page :=
  Answerer.mkPage
    (Ok [Answerer.mkTextContainer
           (Ok (Some (Ok "When can you start?")))
           (Ok (Some (Answerer.mkTextInput (Ok "") (Ok tt))))])
    (Ok [Answerer.mkDropdown
           (Ok (Some (Ok relocation_question)))
           (Ok (Some (Answerer.mkSelect
                        (Ok [Answerer.mkOption (Ok "Yes") (Ok None);
                             Answerer.mkOption (Ok "No") (Ok None)])
                        (Ok tt))))])
    (Ok []).

End Scenarios.

(* ================================================================== *)
(** ** Readings of the state used in the further properties *)

Module Views.
Import PyStr Py Sheet.

(** The test of [get_next_job] on a record's Status. *)
Definition ready (r : record) : bool :=
  orb (cell_is (PyDict.get "Status" r) "unknown")
      (cell_is (PyDict.get "Status" r) "Ready").

(** A job [collect_ready] adds: it sits at a row of the sheet, counted
    from [i], and its record passed the Status test. *)
Definition located (i : Z) (rs : list record) (j : Jobs.job) : Prop :=
  exists k, Jobs.row j = (i + Z.of_nat k)%Z /\ nth_error rs k = Some (Jobs.data j)
            /\ ready (Jobs.data j) = true.

(** A sheet of three rows: one applied, one ready, one ready with a score
    that is no number. *)
Definition applied_row : record :=
  [("Status", CStr "Applied"); ("Score", CInt 9); ("Posted Time", CStr "1 day ago")].

Definition ready_row : record :=
  [("Status", CStr "Ready"); ("Score", CInt 7); ("Posted Time", CStr "5 hours ago")].

Definition bad_score_row : record :=
  [("Status", CStr "Ready"); ("Score", CStr "n/a"); ("Posted Time", CStr "1 day ago")].

(** A [float(s)] that rejects every string. *)
Definition no_float : string -> option float := fun _ => None.

End Views.

(* ================================================================== *)
(** ** The tracking link: [generate_utm_link] *)

Module Utm.
Import PyStr Py Sheet.
Import Py.Notations.

(** A character of the class [a-z0-9]. *)
Definition is_slug_char (c : ascii) : bool :=
  let n := nat_of_ascii c in
  orb (andb (Nat.leb 97 n) (Nat.leb n 122)) (andb (Nat.leb 48 n) (Nat.leb n 57)).

(** [re.sub(r'[^a-z0-9]+', '-', s)]: every maximal run of characters
    outside the class becomes one dash. [in_run] tells that the previous
    character belonged to such a run. *)
Fixpoint sub_runs (in_run : bool) (s : string) : string :=
  match s with
  | EmptyString => EmptyString
  | String c s' =>
      if is_slug_char c then String c (sub_runs false s')
      else if in_run then sub_runs true s'
      else String "-" (sub_runs true s')
  end.

(** [s.lstrip(ch)] and [s.rstrip(ch)] for a single character. *)
Fixpoint lstrip_char (ch : ascii) (s : string) : string :=
  match s with
  | EmptyString => EmptyString
  | String c s' => if Ascii.eqb c ch then lstrip_char ch s' else s
  end.

Fixpoint rstrip_char (ch : ascii) (s : string) : string :=
  match s with
  | EmptyString => EmptyString
  | String c s' =>
      match rstrip_char ch s' with
      | EmptyString => if Ascii.eqb c ch then EmptyString else String c EmptyString
      | r => String c r
      end
  end.

(** [s.strip(ch)]. *)
Definition strip_char (ch : ascii) (s : string) : string :=
  rstrip_char ch (lstrip_char ch s).

(** [re.sub(r'[^a-z0-9]+', '-', s.lower()).strip('-')]. *)
Definition slug (s : string) : string := strip_char "-" (sub_runs false (lower s)).

(** [cell.lower()] needs a string. *)
Definition as_str {S} (c : cell) : M S string :=
  match c with
  | CStr s => ret s
  | _ => raise "AttributeError: object has no attribute 'lower'"
  end.

Definition utm_prefix : string :=
  "https://isaiah.pegues.io?utm_source=job_app&utm_medium=ashby&utm_campaign=".

(** [generate_utm_link]. *)
Definition generate_utm_link {S} (job_data : record) : M S string :=
  company <- index job_data "Company" ;;
  company <- as_str company ;;
  let company_slug := slug company in
  title <- index job_data "Title" ;;
  title <- as_str title ;;
  let role_slug := substring 0 20 (slug title) in
  ret (utm_prefix ++ company_slug ++ "-" ++ role_slug).

(** Every character of a string passes a test. *)
Fixpoint all_chars (p : ascii -> bool) (s : string) : bool :=
  match s with
  | EmptyString => true
  | String c s' => andb (p c) (all_chars p s')
  end.

(** The characters of a slug: the class and the dash. *)
Definition slug_or_dash (c : ascii) : bool := orb (is_slug_char c) (Ascii.eqb c "-").

End Utm.

(* ================================================================== *)
(** ** Inputs of the further properties *)

Module Cases.
Import PyStr Py Sheet.

(** A job record as the sheet gives it. *)
Definition acme_job : record :=
  [("Job URL", CStr "https://www.linkedin.com/jobs/view/4012345678");
   ("Job ID", CInt 4012345678);
   ("Company", CStr "Acme"); ("Title", CStr "Product Manager"); ("Score", CInt 8)].

(** A LinkedIn page whose Apply button opens a Lever form. *)
Definition lever_world : Orchestrator.world :=
  Orchestrator.mkWorld (Ok tt) (Ok tt) (Ok tt)
    (Ats.mkPage "https://www.linkedin.com/jobs/view/4012345678" (Ok "<html></html>"))
    (Ok false) (Ok tt) (Ok false) (Ok true) (Ok false)
    "data/apply_screenshots/4012345678_20250101_120000.png"
    (Ok (Ats.mkPage "https://jobs.lever.co/acme/42" (Ok "<html></html>")))
    (Ok tt) (Ok false) (Ok tt).

(** A LinkedIn job that points straight at an Ashby form which the filler
    submits. *)
Definition ashby_direct_world : Orchestrator.world :=
  Orchestrator.mkWorld (Ok tt) (Ok tt) (Ok tt)
    (Ats.mkPage "https://jobs.ashbyhq.com/acme/4f1c" (Ok "<html></html>"))
    (Ok true) (Ok tt) (Ok false) (Ok false) (Ok false)
    "data/apply_screenshots/4012345678_20250101_120000.png"
    (Raise "no new page") (Ok tt) (Ok false) (Ok tt).

(** A form without any submit control. *)
Definition no_submit_world : Driver.world :=
  Driver.mkWorld (Ok tt) (Ok tt) (fun _ => Ok None) (Ok tt) (Ok tt)
    (fun _ => (Ok tt, Scenarios.form_url)) (fun _ => Ok false) (Ok tt).

(** A submit control the page reports as not enabled. *)
Definition greyed_button : Driver.button :=
  Driver.mkButton (Ok "Submit Application") (Ok tt) (Ok true) (Ok false) (Ok None).

Definition greyed_world : Driver.world :=
  Driver.mkWorld (Ok tt) (Ok tt) (fun _ => Ok (Some greyed_button)) (Ok tt) (Ok tt)
    (fun _ => (Ok tt, Scenarios.form_url)) (fun _ => Ok false) (Ok tt).


End Cases.

(* ================================================================== *)
(** ** The older question handler: [generate_answer] and
       [handle_custom_questions] *)

Module CustomQuestions.
Import PyStr Py Sheet QAMemoryBank Answerer.
Import Py.Notations.

Section WithCollaborators.

Variable w : collaborators.

(** Whether [self.azure_client] is set. *)
Variable client : bool.

Variable str_of_float : float -> string.

(** [generate_answer]: the canned answer without a client; otherwise the
    job context is built (Company, Title and Score are indexed), the LLM is
    asked, and any exception ends in the canned answer. *)
Definition generate_answer (job : record) (question : string) : M qa string :=
  if negb client then ret (fallback_answer question)
  else
    try_except
      (_ <- index job "Company" ;;
       _ <- index job "Title" ;;
       _ <- index job "Score" ;;
       ask_llm w)
      (fun _ => ret (fallback_answer question)).

(** The answer of one question: the memory's, whatever it is, or a
    generated one, which is saved under the label as read. *)
Definition resolve_custom (job : record) (question_text : string) : M qa string :=
  s <- get ;;
  match get_answer (memory s) question_text with
  | Some answer => ret answer
  | None =>
      answer <- generate_answer job question_text ;;
      company <- index job "Company" ;;
      title <- index job "Title" ;;
      save w question_text answer
           (str_of_cell str_of_float company ++ " - " ++ str_of_cell str_of_float title) ;;;
      ret answer
  end.

Record custom_input := mkCustomInput {
  value_attr : outcome (option string);
  custom_fill : outcome unit
}.

Record custom_container := mkCustomContainer {
  q_label : found_text;
  q_input : outcome (option custom_input)
}.

(** The body of the loop of [handle_custom_questions]. *)
Definition handle_custom (job : record) (c : custom_container) : M qa unit :=
  label <- await (q_label c) ;;
  match label with
  | None => ret tt
  | Some text =>
      question_text <- await text ;;
      input_field <- await (q_input c) ;;
      match input_field with
      | None => ret tt
      | Some input =>
          existing_value <- await (value_attr input) ;;
          if match existing_value with
             | Some v => andb (truthy v) (truthy (strip v))
             | None => false
             end
          then ret tt
          else
            answer <- resolve_custom job question_text ;;
            await (custom_fill input) ;;;
            log (Fill question_text answer)
      end
  end.

(** [handle_custom_questions]; [containers] is what the listing query
    returns. *)
Definition handle_custom_questions (containers : outcome (list custom_container))
    (job : record) : M qa unit :=
  containers <- await containers ;;
  for_each containers
    (fun c => try_except (handle_custom job c) (fun _ => ret tt)).

End WithCollaborators.

End CustomQuestions.

(* ================================================================== *)
(** ** One cycle: [can_apply_now], [update_sheet_status],
       [send_telegram_notification], [run_application_cycle] *)

Module Cycle.
Import PyStr Py Sheet Jobs.
Import Py.Notations.

(** The settings read from the environment. *)
Record config := mkConfig {
  max_daily_applications : Z;
  business_hours_only : bool;
  (** the Telegram token and chat id are both set *)
  telegram_configured : bool
}.

(** [self.session_stats]. *)
Record stats := mkStats {
  attempted : nat;
  successful : nat;
  failed : nat;
  unsupported : nat
}.

(** The engine between cycles, and what it has done to the outside: the
    cells written to the main sheet, the number of write calls, the number
    of browsers launched and the messages sent. *)
Record bot := mkBot {
  daily_count : Z;
  session : stats;
  writes : list (string * string);
  write_calls : nat;
  browsers : nat;
  messages : list string
}.

(** What the outside does during one cycle. *)
Record world := mkWorld {
  hour : Z;
  now_iso : string;
  today_iso : string;
  records : outcome (list record);
  (** does the n-th write to the main sheet succeed *)
  write_ok : nat -> bool;
  (** Playwright start, browser context and new page *)
  launch : outcome unit;
  attempt : Orchestrator.world;
  (** does the post to Telegram succeed *)
  telegram_ok : bool
}.

Section WithConfig.

Variable cfg : config.
Variable float_of_str : string -> option float.
Variable str_of_float : float -> string.

(** [can_apply_now]. *)
Definition can_apply_now (current_hour : Z) (b : bot) : bool * string :=
  if Z.geb (daily_count b) (max_daily_applications cfg) then
    (false, "Daily limit reached (" ++ str_of_Z (max_daily_applications cfg) ++ ")")
  else if andb (business_hours_only cfg)
               (orb (Z.ltb current_hour 9) (Z.gtb current_hour 18)) then
    (false, "Outside business hours")
  else (true, "OK").

(** One [self.main_sheet.update(range_name=cell, values=[[value]])]. *)
Definition write (cw : world) (cell value : string) : M bot unit :=
  fun b =>
    if write_ok cw (write_calls b) then
      (Ok tt, mkBot (daily_count b) (session b) (writes b ++ [(cell, value)])
                    (S (write_calls b)) (browsers b) (messages b))
    else
      (Raise "APIError",
       mkBot (daily_count b) (session b) (writes b)
             (S (write_calls b)) (browsers b) (messages b)).

(** The name of a cell: column letter and row number. *)
Definition cell_name (column : string) (row : Z) : string := column ++ str_of_Z row.

(** The second note of [update_sheet_status], written for a non-empty
    error. *)
Definition error_note (row : Z) (error : option string) : list (string * string) :=
  match error with
  | Some e => if truthy e then [(cell_name "Q" row, "Error: " ++ e)] else []
  | None => []
  end.

(** The list [updates] of [update_sheet_status]. *)
Definition status_updates (cw : world) (row : Z) (status ats_type : string)
    (error : option string) : list (string * string) :=
  [(cell_name "F" row, status);
   (cell_name "J" row, ats_type);
   (cell_name "Q" row, String.append "Applied: " (now_iso cw))]
  ++ (if String.eqb status "Applied" then [(cell_name "P" row, today_iso cw)] else [])
  ++ error_note row error.

(** [update_sheet_status]: the updates are written in order until one
    fails; the failure is logged and swallowed. *)
Definition update_sheet_status (cw : world) (row : Z) (status ats_type : string)
    (error : option string) : M bot unit :=
  try_except
    (for_each (status_updates cw row status ats_type error)
              (fun u => write cw (fst u) (snd u)))
    (fun _ => ret tt).

(** [send_telegram_notification]: nothing without the settings; a failed
    post is logged and swallowed. *)
Definition send_telegram_notification (cw : world) (message : string) : M bot unit :=
  if negb (telegram_configured cfg) then ret tt
  else if telegram_ok cw then
    modify (fun b => mkBot (daily_count b) (session b) (writes b) (write_calls b)
                           (browsers b) (messages b ++ [message]))
  else ret tt.

Definition set_session (f : stats -> stats) : M bot unit :=
  modify (fun b => mkBot (daily_count b) (f (session b)) (writes b) (write_calls b)
                         (browsers b) (messages b)).

(** [await self.apply_to_job(page, job)]: the attempt runs on a fresh
    result and on the session's counter of unsupported vendors. *)
Definition run_attempt (cw : world) (job_info : record) : M bot Orchestrator.result :=
  fun b =>
    let r := Orchestrator.apply_to_job (attempt cw) job_info
               (Orchestrator.fresh (unsupported (session b))) in
    (fst r,
     mkBot (daily_count b)
           (mkStats (attempted (session b)) (successful (session b)) (failed (session b))
                    (Orchestrator.unsupported_ats (snd r)))
           (writes b) (write_calls b) (browsers b) (messages b)).

(** [str(x)] of an optional string inside an f-string. *)
Definition str_of_option (o : option string) : string :=
  match o with Some s => s | None => "None" end.

Definition nl : string := String (ascii_of_nat 10) EmptyString.

(** The text of the failure notification. *)
Definition failure_message (title company ats_type error job_url : string) : string :=
  "❌ <b>Application Failed</b>" ++ nl ++ "            " ++ nl
  ++ "Job: " ++ title ++ nl
  ++ "Company: " ++ company ++ nl
  ++ "ATS: " ++ ats_type ++ nl
  ++ "Error: " ++ error ++ nl ++ nl
  ++ "<a href=" ++ Driver.dq ++ job_url ++ Driver.dq ++ ">View Job</a>".

(** [run_application_cycle]. *)
Definition run_application_cycle (cw : world) : M bot unit :=
  b <- get ;;
  if negb (fst (can_apply_now (hour cw) b)) then ret tt
  else
    match get_next_job float_of_str (records cw) with
    | None => ret tt
    | Some job =>
        let job_info := data job in
        title <- index job_info "Title" ;;
        company <- index job_info "Company" ;;
        update_sheet_status cw (row job) "Applying" "" None ;;;
        set_session (fun s => mkStats (S (attempted s)) (successful s) (failed s)
                                      (unsupported s)) ;;;
        modify (fun b => mkBot (daily_count b) (session b) (writes b) (write_calls b)
                               (S (browsers b)) (messages b)) ;;;
        await (launch cw) ;;;
        result <- run_attempt cw job_info ;;
        if Orchestrator.success result then
          update_sheet_status cw (row job) "Applied" (Orchestrator.ats_type result) None ;;;
          set_session (fun s => mkStats (attempted s) (S (successful s)) (failed s)
                                        (unsupported s)) ;;;
          modify (fun b => mkBot (daily_count b + 1) (session b) (writes b)
                                 (write_calls b) (browsers b) (messages b))
        else
          update_sheet_status cw (row job) "Failed" (Orchestrator.ats_type result)
                              (Orchestrator.error result) ;;;
          set_session (fun s => mkStats (attempted s) (successful s) (S (failed s))
                                        (unsupported s)) ;;;
          job_url <- index job_info "Job URL" ;;
          send_telegram_notification cw
            (failure_message (Answerer.str_of_cell str_of_float title)
                             (Answerer.str_of_cell str_of_float company)
                             (Orchestrator.ats_type result)
                             (str_of_option (Orchestrator.error result))
                             (Answerer.str_of_cell str_of_float job_url))
    end.

End WithConfig.

End Cycle.

(* ================================================================== *)
(** ** Inputs of the properties of a cycle *)

Module CycleCases.
Import PyStr Py Sheet.

(** The default settings: at most 50 applications a day, at any hour. *)
Definition default_config : Cycle.config := Cycle.mkConfig 50 false true.


(** An engine at the start of a day. *)
Definition fresh_bot : Cycle.bot :=
  Cycle.mkBot 0 (Cycle.mkStats 0 0 0 0) [] 0 0 [].

(** A sheet with one ready job that points at an Ashby form which the
    filler submits. *)
Definition ashby_cycle : Cycle.world :=
  Cycle.mkWorld 11 "2025-01-01T11:00:00" "2025-01-01"
    (Ok [("Status", CStr "Ready") :: Cases.acme_job])
    (fun _ => true) (Ok tt) Cases.ashby_direct_world true.

End CycleCases.

(* ================================================================== *)
(** * Properties *)

(** ** Substrings and case *)

Module PyStrFacts.
Import PyStr.

Lemma starts_with_split p s :
  starts_with p s = true <-> exists t, s = p ++ t.
Proof.
  revert s; induction p as [|a p IH]; intros s; simpl.
  - split; [intros _; now exists s | reflexivity].
  - destruct s as [|b s].
    + split; [discriminate | intros [t Ht]; discriminate].
    + rewrite andb_true_iff, Ascii.eqb_eq, IH. split.
      * intros [-> [t ->]]. now exists t.
      * intros [t Ht]. injection Ht as -> ->. split; [reflexivity | now exists t].
Qed.

Lemma contains_split sub s :
  contains sub s = true <-> exists a b, s = a ++ sub ++ b.
Proof.
  induction s as [|c s IH]; simpl.
  - rewrite starts_with_split. split.
    + intros [t Ht]. exists EmptyString, t. exact Ht.
    + intros [a [b H]]. destruct a; simpl in H; [now exists b | discriminate].
  - rewrite orb_true_iff, starts_with_split, IH. split.
    + intros [[t Ht] | [a [b H]]].
      * exists EmptyString, t. exact Ht.
      * exists (String c a), b. simpl. now rewrite H.
    + intros [a [b H]]. destruct a as [|c' a]; simpl in H.
      * left. now exists b.
      * right. injection H as _ H. now exists a, b.
Qed.

Lemma append_assoc (a b c : string) : (a ++ b) ++ c = a ++ b ++ c.
Proof. induction a as [|x a IH]; simpl; [reflexivity | now rewrite IH]. Qed.

Lemma lower_append a b : lower (a ++ b) = lower a ++ lower b.
Proof. induction a as [|x a IH]; simpl; [reflexivity | now rewrite IH]. Qed.

(** A substring stays one when both strings are lowered. *)
Lemma contains_lower sub s :
  contains sub s = true -> contains (lower sub) (lower s) = true.
Proof.
  rewrite !contains_split. intros [a [b ->]].
  exists (lower a), (lower b). now rewrite !lower_append.
Qed.

(** A substring of a substring is a substring. *)
Lemma contains_trans inner sub s :
  contains inner sub = true -> contains sub s = true -> contains inner s = true.
Proof.
  rewrite !contains_split. intros [a [b ->]] [a' [b' ->]].
  exists (a' ++ a), (b ++ b'). now rewrite !append_assoc.
Qed.

End PyStrFacts.

(** ** Dictionaries *)

Module PyDictFacts.

Lemma get_set_same {V} k (v : V) d : PyDict.get k (PyDict.set k v d) = Some v.
Proof.
  induction d as [|[k' v'] d IH]; simpl.
  - now rewrite String.eqb_refl.
  - destruct (String.eqb k k') eqn:E; simpl; rewrite E; [reflexivity | exact IH].
Qed.


End PyDictFacts.

(** ** The memory bank *)

Module QAMemoryBankFacts.
Import PyStr QAMemoryBank.


(** A saved answer is found again under its own question. *)
Lemma get_answer_saved ok now b q a ctx :
  get_answer (save_answer ok now b q a ctx) q = Some a.
Proof.
  unfold get_answer, save_answer.
  destruct ok; simpl; now rewrite PyDictFacts.get_set_same.
Qed.


End QAMemoryBankFacts.

(** ** The ATS detector *)

Module AtsFacts.
Import PyStr PyStrFacts Py Ats.

(** C3, as stated, fails: the URL checks run in a fixed order, and an
    earlier one wins. This URL contains [boards.greenhouse.io], the content
    mentions "ashby" and not "ashbyhq", and the detector answers "ashby",
    because the URL also contains [ashbyhq.com]. *)
Lemma detect_ats_greenhouse_url_counterexample :
  ~ (forall p content,
        contains "boards.greenhouse.io" (page_url p) = true ->
        page_content p = Ok content ->
        contains "ashby" (lower content) = true ->
        contains "ashbyhq" (lower content) = false ->
        detect_ats p = "greenhouse").
Proof.
  intros H.
  specialize (H (mkPage "https://boards.greenhouse.io/acme/jobs/1?gh_src=ashbyhq.com"
                        (Ok "Powered by Ashby"))
                "Powered by Ashby" eq_refl eq_refl eq_refl eq_refl).
  discriminate H.
Qed.

(** C3, amended. A URL match wins over any page content, and among the
    URL checks the earlier wins: a URL that contains [boards.greenhouse.io]
    and not [ashbyhq.com] gives "greenhouse"; a URL that contains
    [myworkdayjobs.com] and none of [ashbyhq.com], [greenhouse.io],
    [boards.greenhouse] gives "workday"; both whatever the content is or
    does. Without a URL match the answer is "ashby" exactly when the
    content is read and contains both "ashby" and "ashbyhq". *)
Theorem detect_ats_url_precedence :
  (forall p,
      contains "boards.greenhouse.io" (page_url p) = true ->
      contains "ashbyhq.com" (lower (page_url p)) = false ->
      detect_ats p = "greenhouse")
  /\
  (forall p,
      contains "myworkdayjobs.com" (page_url p) = true ->
      contains "ashbyhq.com" (lower (page_url p)) = false ->
      contains "greenhouse.io" (lower (page_url p)) = false ->
      contains "boards.greenhouse" (lower (page_url p)) = false ->
      detect_ats p = "workday")
  /\
  (forall p,
      contains "ashbyhq.com" (lower (page_url p)) = false ->
      contains "greenhouse.io" (lower (page_url p)) = false ->
      contains "boards.greenhouse" (lower (page_url p)) = false ->
      contains "myworkdayjobs.com" (lower (page_url p)) = false ->
      contains "lever.co" (lower (page_url p)) = false ->
      contains "bamboohr.com" (lower (page_url p)) = false ->
      (detect_ats p = "ashby" <->
       exists content,
         page_content p = Ok content /\
         contains "ashby" (lower content) = true /\
         contains "ashbyhq" (lower content) = true)).
Proof.
  split; [|split].
  - intros p Hgh Hno.
    assert (Hl : contains "greenhouse.io" (lower (page_url p)) = true).
    { apply contains_trans with (sub := "boards.greenhouse.io"); [reflexivity|].
      exact (contains_lower _ _ Hgh). }
    unfold detect_ats. now rewrite Hno, Hl.
  - intros p Hwd H1 H2 H3.
    pose proof (contains_lower _ _ Hwd) as Hl.
    change (lower "myworkdayjobs.com") with "myworkdayjobs.com" in Hl.
    unfold detect_ats. now rewrite H1, H2, H3, Hl.
  - intros p H1 H2 H3 H4 H5 H6.
    unfold detect_ats. rewrite H1, H2, H3, H4, H5, H6. simpl.
    destruct (page_content p) as [content|e].
    + destruct (contains "ashby" (lower content)) eqn:Ea;
        destruct (contains "ashbyhq" (lower content)) eqn:Eb; simpl.
      * split; [intros _; now exists content | reflexivity].
      * split; [|intros [c [Hc [_ Hb]]]; injection Hc as <-; congruence].
        destruct (contains "greenhouse" (lower content));
          [|destruct (contains "workday" (lower content))]; discriminate.
      * split; [|intros [c [Hc [Ha _]]]; injection Hc as <-; congruence].
        destruct (contains "greenhouse" (lower content));
          [|destruct (contains "workday" (lower content))]; discriminate.
      * split; [|intros [c [Hc [Ha _]]]; injection Hc as <-; congruence].
        destruct (contains "greenhouse" (lower content));
          [|destruct (contains "workday" (lower content))]; discriminate.
    + split; [discriminate | intros [c [Hc _]]; discriminate].
Qed.

(** The three parts at concrete pages: a Greenhouse board whose content
    mentions Ashby, a Workday URL whose content cannot be read, and an
    unknown host whose content names ashbyhq. *)
Lemma detect_ats_url_precedence_witness :
  detect_ats (mkPage "https://boards.greenhouse.io/acme/jobs/1" (Ok "Powered by Ashby"))
    = "greenhouse"
  /\ detect_ats (mkPage "https://acme.wd1.myworkdayjobs.com/careers" (Raise "timeout"))
    = "workday"
  /\ detect_ats (mkPage "https://careers.acme.com/apply"
                        (Ok "<script src=https://jobs.AshbyHQ.com/embed></script>"))
    = "ashby".
Proof.
  split; [|split].
  - apply (proj1 detect_ats_url_precedence); reflexivity.
  - apply (proj1 (proj2 detect_ats_url_precedence)); reflexivity.
  - apply (proj2 (proj2 detect_ats_url_precedence)); try reflexivity.
    eexists; repeat split; reflexivity.
Defined.

End AtsFacts.

(** ** Job selection *)

Module JobsFacts.
Import PyStr Py Sheet Jobs Scenarios.

(** The recency term looks at the posted days only up to ten. *)
Lemma priority_of_capped score d :
  priority_of score d = priority_of score (Z.min d 10).
Proof. unfold priority_of. now rewrite <- Z.min_assoc, Z.min_id. Qed.

(** C7. The priority is [score*0.7 + (10 - min(posted_days, 10))*0.3], the
    posted days counting up to ten only. The job posted "2 days ago" with
    score 8 gets 8.0, the job posted "3 weeks ago" (21 days) with score 9
    gets 6.3, in binary64 arithmetic, and [get_next_job] selects the first,
    whichever of the two is read first from the sheet. *)
Theorem get_next_job_priority_scenario (float_of_str : string -> option float) :
  (forall score d,
      priority_of score d =
      (score * 0.7 + float_of_Z (10 - Z.min d 10) * 0.3)%float)
  /\ (forall score d, priority_of score d = priority_of score (Z.min d 10))
  /\ _parse_posted_time "2 days ago" = 2%Z
  /\ _parse_posted_time "3 weeks ago" = 21%Z
  /\ priority_of 8 (_parse_posted_time "2 days ago") = 8%float
  /\ priority_of 9 (_parse_posted_time "3 weeks ago") = 6.3%float
  /\ get_next_job float_of_str (Ok [job_two_days; job_three_weeks])
     = Some (mkJob 2 job_two_days 8)
  /\ get_next_job float_of_str (Ok [job_three_weeks; job_two_days])
     = Some (mkJob 3 job_two_days 8).
Proof.
  split; [reflexivity|].
  split; [intros score d; apply priority_of_capped|].
  repeat split; vm_compute; reflexivity.
Qed.

End JobsFacts.

(** ** Reasoning about computations *)

Module PyFacts.
Import Py.

Section Keeps.
Context {S : Type} (P : S -> Prop).

(** A computation keeps [P] when the state it leaves satisfies [P]
    whenever the state it starts from does, also when it raises. *)
Definition keeps {A} (m : M S A) : Prop := forall s, P s -> P (snd (m s)).

Lemma keeps_ret {A} (a : A) : keeps (ret a).
Proof. intros s H; exact H. Qed.

Lemma keeps_raise {A} e : keeps (@raise S A e).
Proof. intros s H; exact H. Qed.

Lemma keeps_await {A} (o : outcome A) : keeps (await o).
Proof. intros s H; exact H. Qed.

Lemma keeps_get : keeps get.
Proof. intros s H; exact H. Qed.

Lemma keeps_modify f : (forall s, P s -> P (f s)) -> keeps (modify f).
Proof. intros Hf s H; exact (Hf s H). Qed.

Lemma keeps_bind {A B} (m : M S A) (k : A -> M S B) :
  keeps m -> (forall a, keeps (k a)) -> keeps (bind m k).
Proof.
  intros Hm Hk s H. unfold bind. specialize (Hm s H).
  destruct (m s) as [[a|e] s']; simpl in *; [now apply Hk | exact Hm].
Qed.

Lemma keeps_try_except {A} (m : M S A) h :
  keeps m -> (forall e, keeps (h e)) -> keeps (try_except m h).
Proof.
  intros Hm Hh s H. unfold try_except. specialize (Hm s H).
  destruct (m s) as [[a|e] s']; simpl in *; [exact Hm | now apply Hh].
Qed.

Lemma keeps_for_each {A} (l : list A) body :
  (forall x, keeps (body x)) -> keeps (for_each l body).
Proof.
  intros Hb. induction l as [|x l IH]; simpl.
  - apply keeps_ret.
  - apply keeps_bind; [apply Hb | intros _; exact IH].
Qed.

End Keeps.

Section Returns.
Context {S : Type}.

(** A computation returns when it raises from no state. *)
Definition returns {A} (m : M S A) : Prop := forall s, exists a, fst (m s) = Ok a.

Lemma returns_ret {A} (a : A) : returns (ret a).
Proof. intros s; now exists a. Qed.

Lemma returns_get : returns (@get S).
Proof. intros s; now exists s. Qed.

Lemma returns_modify f : returns (@modify S f).
Proof. intros s; now exists tt. Qed.

Lemma returns_bind {A B} (m : M S A) (k : A -> M S B) :
  returns m -> (forall a, returns (k a)) -> returns (bind m k).
Proof.
  intros Hm Hk s. unfold bind. destruct (Hm s) as [a Ha].
  destruct (m s) as [[a'|e] s']; simpl in Ha; [apply Hk | discriminate].
Qed.

(** A handler that returns makes the whole [try] return, whatever the
    body does. *)
Lemma returns_try_except {A} (m : M S A) h :
  (forall e, returns (h e)) -> returns (try_except m h).
Proof.
  intros Hh s. unfold try_except.
  destruct (m s) as [[a|e] s']; [now exists a | apply Hh].
Qed.

Lemma returns_for_each {A} (l : list A) body :
  (forall x, returns (body x)) -> returns (for_each l body).
Proof.
  intros Hb. induction l as [|x l IH]; simpl.
  - apply returns_ret.
  - apply returns_bind; [apply Hb | intros _; exact IH].
Qed.

End Returns.

End PyFacts.

(** ** The orchestrator *)

Module OrchestratorFacts.
Import PyStr Py PyFacts Sheet Ats Orchestrator Scenarios.

(** The detector answers with a vendor of the enumeration. *)
Lemma detect_ats_in_enum p : In (detect_ats p) ats_enum.
Proof.
  unfold detect_ats, ats_enum.
  repeat match goal with
         | |- context [if ?c then _ else _] => destruct c
         | |- context [match ?o with Ok _ => _ | Raise _ => _ end] => destruct o
         end; simpl; tauto.
Qed.

Lemma keeps_set_success b : keeps ats_ok (set_success b).
Proof. apply keeps_modify. intros s H; exact H. Qed.

Lemma keeps_set_error e : keeps ats_ok (set_error e).
Proof. apply keeps_modify. intros s H; exact H. Qed.

Lemma keeps_set_screenshot p : keeps ats_ok (set_screenshot p).
Proof. apply keeps_modify. intros s H; exact H. Qed.

Lemma keeps_count_unsupported : keeps ats_ok count_unsupported.
Proof. apply keeps_modify. intros s H; exact H. Qed.

Lemma keeps_set_ats_type t : In t ats_values -> keeps ats_ok (set_ats_type t).
Proof. intros Ht. apply keeps_modify. intros s _; exact Ht. Qed.

Lemma keeps_index r k : keeps ats_ok (index r k).
Proof.
  unfold index. destruct (PyDict.get k r); [apply keeps_ret | apply keeps_raise].
Qed.

Lemma keeps_capture_screenshot w job : keeps ats_ok (capture_screenshot w job).
Proof.
  unfold capture_screenshot.
  apply keeps_bind; [apply keeps_index | intros _; apply keeps_ret].
Qed.

Create HintDb keeps.

#[local] Hint Resolve keeps_ret keeps_raise keeps_await keeps_get
  keeps_set_success keeps_set_error keeps_set_screenshot keeps_count_unsupported
  keeps_index keeps_capture_screenshot : keeps.

Ltac keeps_step :=
  match goal with
  | |- keeps _ (bind _ _) => apply keeps_bind; [|intros ?]
  | |- keeps _ (try_except _ _) => apply keeps_try_except; [|intros ?]
  | |- keeps _ (if ?c then _ else _) => destruct c
  | |- keeps _ (set_ats_type (detect_ats _)) =>
      apply keeps_set_ats_type; right; apply detect_ats_in_enum
  | |- keeps _ (set_ats_type _) => apply keeps_set_ats_type; simpl; tauto
  | |- keeps _ _ => solve [auto with keeps]
  end.

Lemma keeps_apply_to_job_try w job : keeps ats_ok (apply_to_job_try w job).
Proof.
  unfold apply_to_job_try, handle_easy_apply, apply_greenhouse, apply_workday.
  repeat keeps_step.
Qed.

Lemma keeps_apply_to_job w job : keeps ats_ok (apply_to_job w job).
Proof.
  unfold apply_to_job.
  pose proof (keeps_apply_to_job_try w job).
  repeat keeps_step; assumption.
Qed.

(** What [apply_to_job] returns is the [result] it has built. *)
Lemma apply_to_job_returns_res w job s r s' :
  apply_to_job w job s = (Ok r, s') -> r = res s'.
Proof.
  unfold apply_to_job, bind, get, ret.
  destruct (try_except _ _ s) as [[[]|e] s1]; intros H; inversion H; reflexivity.
Qed.

(** C2, as stated, fails: on a page with an Easy Apply button the result
    carries the type "linkedin_easy", which is no value of the
    enumeration. *)
Lemma apply_to_job_ats_type_counterexample :
  ~ (forall w job n r s',
        apply_to_job w job (fresh n) = (Ok r, s') -> In (ats_type r) ats_enum).
Proof.
  intros H.
  assert (E : exists r s', apply_to_job easy_apply_world easy_apply_job (fresh 0) = (Ok r, s')
                           /\ ats_type r = "linkedin_easy").
  { eexists; eexists; split; vm_compute; reflexivity. }
  destruct E as [r [s' [E Ht]]].
  specialize (H _ _ _ _ _ E). rewrite Ht in H.
  simpl in H. repeat (destruct H as [H|H]; [discriminate H|]). exact H.
Qed.

(** C2, amended. Whatever the browser and the fillers do, the [ats_type]
    of a result returned by [apply_to_job] is one of ashby, greenhouse,
    workday, lever, bamboohr, unknown, or linkedin_easy. *)
Theorem apply_to_job_ats_type w job n r s' :
  apply_to_job w job (fresh n) = (Ok r, s') ->
  In (ats_type r)
     ["linkedin_easy"; "ashby"; "greenhouse"; "workday"; "lever"; "bamboohr"; "unknown"].
Proof.
  intros H. rewrite (apply_to_job_returns_res _ _ _ _ _ H).
  pose proof (keeps_apply_to_job w job (fresh n)) as K.
  rewrite H in K. apply K. unfold ats_ok, fresh; simpl. tauto.
Qed.

(** The amended claim on the Easy Apply page. *)
Lemma apply_to_job_ats_type_witness :
  apply_to_job easy_apply_world easy_apply_job (fresh 0)
    = (Ok easy_apply_result, mkApp easy_apply_result 0)
  /\ In (ats_type easy_apply_result)
        ["linkedin_easy"; "ashby"; "greenhouse"; "workday"; "lever"; "bamboohr"; "unknown"].
Proof.
  exact (conj eq_refl
           (apply_to_job_ats_type easy_apply_world easy_apply_job 0
              easy_apply_result (mkApp easy_apply_result 0) eq_refl)).
Defined.

End OrchestratorFacts.

(** ** The submission driver *)

Module DriverFacts.
Import PyStr Py Sheet Driver Scenarios.

(** What one strategy block does when it runs: it logs its click and
    reports the observed change. *)
Lemma attempt_run w s pre d :
  attempt w s pre false d
  = (Ok (observed_change w pre s), mkDrv (snd (click w s)) (trace d ++ [Clicked s])).
Proof.
  unfold attempt, try_except, bind, do_click, get, ret, observed_change.
  destruct (click w s) as [[[]|e] post]; reflexivity.
Qed.

(** A block after a success does nothing. *)
Lemma attempt_skip w s pre d : attempt w s pre true d = (Ok true, d).
Proof. reflexivity. Qed.

Lemma clicks_app t1 t2 : clicks (t1 ++ t2) = (clicks t1 ++ clicks t2)%list.
Proof. unfold clicks. now rewrite flat_map_app. Qed.

(** The strategies the escalation attempts, and its verdict. *)
Lemma escalate_clicks w pre d :
  clicks (trace (snd (escalate w pre d)))
  = (clicks (trace d) ++ until_change w pre order)%list
  /\ fst (escalate w pre d) = Ok (existsb (observed_change w pre) order).
Proof.
  unfold escalate, bind. rewrite attempt_run.
  destruct (observed_change w pre NormalClick) eqn:E1.
  { rewrite !attempt_skip. simpl. rewrite E1. now rewrite clicks_app. }
  rewrite attempt_run.
  destruct (observed_change w pre ForceClick) eqn:E2.
  { rewrite !attempt_skip. simpl. rewrite E1, E2. now rewrite !clicks_app, <- !app_assoc. }
  rewrite attempt_run.
  destruct (observed_change w pre JsClick) eqn:E3.
  { rewrite !attempt_skip. simpl. rewrite E1, E2, E3.
    now rewrite !clicks_app, <- !app_assoc. }
  rewrite attempt_run. simpl. rewrite E1, E2, E3.
  rewrite !clicks_app, <- !app_assoc. simpl.
  destruct (observed_change w pre DoubleClick); split; reflexivity.
Qed.

(** A strategy is among those tried exactly when no earlier one showed a
    change. *)
Lemma in_until_change w pre s :
  In s (until_change w pre order)
  <-> forall s', In s' (earlier s) -> observed_change w pre s' = false.
Proof.
  unfold order, earlier, order. simpl.
  destruct (observed_change w pre NormalClick) eqn:E1;
    destruct (observed_change w pre ForceClick) eqn:E2;
    destruct (observed_change w pre JsClick) eqn:E3;
    destruct s; simpl; split; intros H;
    try tauto;
    try (intros s' Hs'; repeat (destruct Hs' as [<-|Hs']; [assumption|]); tauto);
    try (exfalso;
         first [ specialize (H NormalClick (or_introl eq_refl)); congruence
               | specialize (H ForceClick (or_intror (or_introl eq_refl))); congruence
               | specialize (H JsClick (or_intror (or_intror (or_introl eq_refl)))); congruence ]);
    try (repeat (destruct H as [H|H]; [discriminate H|]); tauto).
Qed.

(** C4, as stated, fails: the normal click of this page raises after the
    URL has changed, and the forced click is attempted all the same. *)
Lemma escalation_after_changed_url_counterexample :
  ~ (forall w pre s s',
        In s (clicks (trace (snd (escalate w pre (mkDrv pre []))))) ->
        In s' (earlier s) ->
        snd (click w s') = pre).
Proof.
  intros H.
  specialize (H raising_click_world form_url ForceClick NormalClick).
  assert (C : clicks (trace (snd (escalate raising_click_world form_url (mkDrv form_url []))))
              = [NormalClick; ForceClick]) by (vm_compute; reflexivity).
  rewrite C in H.
  specialize (H (or_intror (or_introl eq_refl)) (or_introl eq_refl)).
  discriminate H.
Qed.

(** C4, amended. The escalation attempts the strategies in the order
    normal, forced, script, double click, up to and including the first one
    that completes without an error and after which the URL read differs
    from the URL before the submission; so a strategy is attempted exactly
    when every earlier one raised an error or was seen to leave the URL
    unchanged, and the verdict says whether some attempt showed a change. *)
Theorem escalation_order w pre :
  clicks (trace (snd (escalate w pre (mkDrv pre []))))
  = until_change w pre [NormalClick; ForceClick; JsClick; DoubleClick]
  /\ (forall s,
         In s (clicks (trace (snd (escalate w pre (mkDrv pre []))))) <->
         forall s', In s' (earlier s) -> observed_change w pre s' = false)
  /\ fst (escalate w pre (mkDrv pre []))
     = Ok (existsb (observed_change w pre) [NormalClick; ForceClick; JsClick; DoubleClick]).
Proof.
  destruct (escalate_clicks w pre (mkDrv pre [])) as [Hc Hv]. simpl in Hc.
  split; [exact Hc | split; [|exact Hv]].
  intros s. rewrite Hc. apply in_until_change.
Qed.

(** The scenario of the specification: a control that answers to the
    script click only sees the normal and the forced click first, then the
    script click, and no double click. *)
Lemma escalation_order_witness :
  clicks (trace (snd (escalate script_only_world form_url (mkDrv form_url []))))
  = [NormalClick; ForceClick; JsClick]
  /\ fst (escalate script_only_world form_url (mkDrv form_url [])) = Ok true.
Proof.
  exact (conj (proj1 (escalation_order script_only_world form_url))
              (proj2 (proj2 (escalation_order script_only_world form_url)))).
Defined.

(** A control reported invisible, not enabled, or carrying a [disabled]
    attribute with a value is never clicked: the attempt ends with the
    "submit_blocked" screenshot, or with the error screenshot of
    [apply_ashby] when a page query raises on the way. *)
Lemma submit_stage_blocked_no_click w job b (visible enabled : bool) disabled d :
  find_submit w submit_selectors d = (Ok (Some b), d) ->
  settle w = Ok tt ->
  scroll_into_view b = Ok tt ->
  is_visible b = Ok visible -> is_enabled b = Ok enabled ->
  disabled_attr b = Ok disabled ->
  orb (negb visible) (orb (negb enabled) (truthy_opt disabled)) = true ->
  clicks (trace (snd (submit_stage w job d))) = clicks (trace d).
Proof.
  intros Hf Hs Hsc Hv He Hd Hb.
  unfold submit_stage, bind, await. rewrite Hs, Hf, Hsc, Hv, He, Hd, Hb.
  unfold capture_screenshot, index, bind, modify, ret, raise.
  destruct (blocked_scan w); [|reflexivity].
  destruct (PyDict.get "Job ID" job); simpl; [|reflexivity].
  rewrite clicks_app. simpl. now rewrite app_nil_r.
Qed.

(** C8 on the code: a control that carries a bare [disabled] attribute
    (its value is the empty string) and is reported visible and enabled is
    clicked by all four strategies, and no "submit_blocked" screenshot is
    taken. *)
Lemma submit_stage_bare_disabled_attribute_is_clicked :
  disabled_attr inert_button = Ok (Some "")
  /\ clicks (trace (snd (apply_ashby inert_world ashby_job (mkDrv form_url []))))
     = [NormalClick; ForceClick; JsClick; DoubleClick]
  /\ screenshots (trace (snd (apply_ashby inert_world ashby_job (mkDrv form_url []))))
     = ["submission_failed"]
  /\ fst (apply_ashby inert_world ashby_job (mkDrv form_url [])) = Ok false.
Proof. repeat split; vm_compute; reflexivity. Qed.

End DriverFacts.

(** ** The question answerer *)

Module AnswererFacts.
Import PyStr Py PyFacts Sheet QAMemoryBank QAMemoryBankFacts Answerer Scenarios.

Section WithCollaborators.

Variable w : collaborators.

Lemma truthy_opt_some o :
  truthy_opt o = true -> exists a, o = Some a /\ a <> "".
Proof.
  destruct o as [[|c a]|]; simpl; try discriminate.
  intros _. eexists; split; [reflexivity | discriminate].
Qed.

Lemma truthy_nonempty a : a <> "" -> truthy a = true.
Proof. destruct a; [congruence | reflexivity]. Qed.

(** A remembered, non-empty answer is returned and nothing changes. *)
Lemma resolve_text_hit job q s :
  truthy_opt (get_answer (memory s) (strip (lower q))) = true ->
  exists a, get_answer (memory s) (strip (lower q)) = Some a /\ a <> "" /\
            resolve_text w job q s = (Ok a, s).
Proof.
  intros H. destruct (truthy_opt_some _ H) as [a [Ha Hne]].
  exists a. repeat split; try assumption.
  unfold resolve_text, bind, get. now rewrite H, Ha.
Qed.

(** Otherwise the LLM is asked once and its answer saved. *)
Lemma resolve_text_miss job q s :
  truthy_opt (get_answer (memory s) (strip (lower q))) = false ->
  resolve_text w job q s
  = (Ok (text_reply w q s), saved w (strip (lower q)) (text_reply w q s) job s).
Proof.
  intros H. unfold resolve_text, bind, get. rewrite H.
  unfold try_except, ask_llm, save, modify, ret, text_reply, saved.
  destruct (llm w (llm_calls s)) as [e|[content|]]; reflexivity.
Qed.

Lemma resolve_choice_hit job q options s :
  truthy_opt (get_answer (memory s) (strip (lower q) ++ "||" ++ join "|" options)) = true ->
  exists a, get_answer (memory s) (strip (lower q) ++ "||" ++ join "|" options) = Some a
            /\ a <> "" /\ resolve_choice w job q options s = (Ok a, s).
Proof.
  intros H. destruct (truthy_opt_some _ H) as [a [Ha Hne]].
  exists a. repeat split; try assumption.
  unfold resolve_choice, bind, get. now rewrite H, Ha.
Qed.

Lemma resolve_choice_miss job q first rest s :
  truthy_opt (get_answer (memory s)
                (strip (lower q) ++ "||" ++ join "|" (first :: rest))) = false ->
  resolve_choice w job q (first :: rest) s
  = (Ok (choice_reply w first (first :: rest) s),
     saved w (strip (lower q) ++ "||" ++ join "|" (first :: rest))
           (choice_reply w first (first :: rest) s) job s).
Proof.
  intros H. unfold resolve_choice, bind, get. rewrite H.
  unfold try_except, ask_llm, save, modify, ret, choice_reply, saved, bind, first_option.
  destruct (llm w (llm_calls s)) as [e|[content|]]; try reflexivity.
  destruct (match_choice (strip content) (first :: rest)) as [txt|]; [|reflexivity].
  simpl. destruct (truthy txt); reflexivity.
Qed.





(** C1, amended. When the memory holds no non-empty answer for a question,
    the answer obtained from the LLM or from the fallback is filed in the
    cache under the question's key before the answerer returns, and a row
    is appended to the tracker sheet when the sheet takes it; when the
    memory answers, nothing is saved and the state is left as it was. *)
Theorem fresh_answers_are_saved job :
  (forall q s,
      truthy_opt (get_answer (memory s) (strip (lower q))) = false ->
      exists a,
        fst (resolve_text w job q s) = Ok a /\
        PyDict.get (cache_key (strip (lower q)))
                   (cache (memory (snd (resolve_text w job q s))))
          = Some (mkEntry a job 1) /\
        sheet (memory (snd (resolve_text w job q s)))
          = if sheet_appends w (save_calls s)
            then (sheet (memory s)
                  ++ [mkRow (strip (lower q)) a job 1 (clock w (save_calls s))])%list
            else sheet (memory s))
  /\
  (forall q first rest s,
      let key := strip (lower q) ++ "||" ++ join "|" (first :: rest) in
      truthy_opt (get_answer (memory s) key) = false ->
      exists a,
        fst (resolve_choice w job q (first :: rest) s) = Ok a /\
        PyDict.get (cache_key key)
                   (cache (memory (snd (resolve_choice w job q (first :: rest) s))))
          = Some (mkEntry a job 1) /\
        sheet (memory (snd (resolve_choice w job q (first :: rest) s)))
          = if sheet_appends w (save_calls s)
            then (sheet (memory s) ++ [mkRow key a job 1 (clock w (save_calls s))])%list
            else sheet (memory s))
  /\
  (forall q s,
      truthy_opt (get_answer (memory s) (strip (lower q))) = true ->
      snd (resolve_text w job q s) = s)
  /\
  (forall q options s,
      truthy_opt (get_answer (memory s)
                    (strip (lower q) ++ "||" ++ join "|" options)) = true ->
      snd (resolve_choice w job q options s) = s).
Proof.
  split; [|split; [|split]].
  - intros q s H. rewrite (resolve_text_miss _ _ _ H).
    exists (text_reply w q s). simpl. unfold save_answer, cache_key.
    destruct (sheet_appends w (save_calls s)); simpl;
      now rewrite PyDictFacts.get_set_same.
  - intros q first rest s key H. subst key. rewrite (resolve_choice_miss _ _ _ _ _ H).
    exists (choice_reply w first (first :: rest) s). simpl fst. simpl snd.
    unfold saved, save_answer, cache_key.
    destruct (sheet_appends w (save_calls s)); simpl memory; simpl cache; simpl sheet;
      now rewrite PyDictFacts.get_set_same.
  - intros q s H. destruct (resolve_text_hit job _ _ H) as [a [_ [_ E]]]. now rewrite E.
  - intros q options s H.
    destruct (resolve_choice_hit job _ _ _ H) as [a [_ [_ E]]]. now rewrite E.
Qed.



(** The body of every question loop runs under a handler that returns. *)
Lemma returns_guarded {A} (body : A -> M qa unit) (l : list A) :
  returns (for_each l (fun c => try_except (body c) (fun _ => ret tt))).
Proof.
  apply returns_for_each. intros c.
  apply returns_try_except. intros e. apply returns_ret.
Qed.

(** C9, amended. No error of the LLM and no error met while one question is
    handled leaves the answerer: when the job record has its Company and
    Title and the three listings of question containers succeed,
    [handle_all_questions] returns, whatever the LLM, the tracker sheet and
    the page elements do. A failed LLM call is downgraded to the canned
    answer for a free-text question and to the first option for a choice
    question. *)
Theorem answerer_catches_llm_errors (str_of_float : float -> string) :
  (forall p job company title texts dropdowns radios s,
      PyDict.get "Company" job = Some company ->
      PyDict.get "Title" job = Some title ->
      text_containers p = Ok texts ->
      dropdown_containers p = Ok dropdowns ->
      radio_containers p = Ok radios ->
      exists u, fst (handle_all_questions w str_of_float p job s) = Ok u)
  /\
  (forall job q s,
      truthy_opt (get_answer (memory s) (strip (lower q))) = false ->
      llm_fails (llm w (llm_calls s)) = true ->
      fst (resolve_text w job q s) = Ok (fallback_answer q))
  /\
  (forall job q first rest s,
      truthy_opt (get_answer (memory s)
                    (strip (lower q) ++ "||" ++ join "|" (first :: rest))) = false ->
      llm_fails (llm w (llm_calls s)) = true ->
      fst (resolve_choice w job q (first :: rest) s) = Ok first).
Proof.
  split; [|split].
  - intros p job company title texts dropdowns radios s Hc Ht H1 H2 H3.
    revert s. change (returns (handle_all_questions w str_of_float p job)).
    unfold handle_all_questions, index. rewrite Hc, Ht, H1, H2, H3.
    repeat (apply returns_bind; [|intros ?]);
      solve [apply returns_ret | apply returns_guarded].
  - intros job q s Hm Hf. rewrite (resolve_text_miss _ _ _ Hm). simpl.
    unfold text_reply. destruct (llm w (llm_calls s)) as [e|[c|]];
      [reflexivity | discriminate Hf | reflexivity].
  - intros job q first rest s Hm Hf. rewrite (resolve_choice_miss _ _ _ _ _ Hm). simpl.
    unfold choice_reply. destruct (llm w (llm_calls s)) as [e|[c|]];
      [reflexivity | discriminate Hf | reflexivity].
Qed.

End WithCollaborators.

(** C1, as stated, fails: the memory answers this question through the
    fuzzy match of another one; the answerer returns that answer and saves
    nothing, so the question's own key is still absent from the cache and no
    row reaches the sheet. *)
Lemma cache_hit_is_not_saved_counterexample :
  ~ (forall w job q s a s',
        resolve_text w job q s = (Ok a, s') ->
        option_map answer
          (PyDict.get (cache_key (strip (lower q))) (cache (memory s'))) = Some a).
Proof.
  intros H.
  specialize (H blank_llm "Acme - Product Manager" why_question (start why_bank)
                "Because." (start why_bank) eq_refl).
  discriminate H.
Qed.

(** The amended C1 on an empty memory, with an LLM that fails: the canned
    answer is filed and its row appended. *)
Lemma fresh_answers_are_saved_witness :
  exists a,
    fst (resolve_text failing_llm "Acme - Product Manager" "When can you start?"
           (start empty_bank)) = Ok a /\
    PyDict.get (cache_key "when can you start?")
      (cache (memory (snd (resolve_text failing_llm "Acme - Product Manager"
                             "When can you start?" (start empty_bank)))))
      = Some (mkEntry a "Acme - Product Manager" 1) /\
    sheet (memory (snd (resolve_text failing_llm "Acme - Product Manager"
                          "When can you start?" (start empty_bank))))
      = [mkRow "when can you start?" a "Acme - Product Manager" 1 "2025-01-01T12:00:00"].
Proof.
  exact (proj1 (fresh_answers_are_saved failing_llm "Acme - Product Manager")
               "When can you start?" (start empty_bank) eq_refl).
Defined.




(** C9, as stated, fails on both counts: the answerer raises when a
    listing of the question containers raises, outside the per-question
    handlers; and a failed LLM call on a choice question ends in the first
    option, not in the canned answer. *)
Lemma answerer_raises_and_skips_canned_answer_counterexample :
  ~ (forall w str_of_float p job s,
        exists u, fst (handle_all_questions w str_of_float p job s) = Ok u)
  /\
  ~ (forall w job q options s e,
        llm w (llm_calls s) = LlmError e ->
        truthy_opt (get_answer (memory s)
                      (strip (lower q) ++ "||" ++ join "|" options)) = false ->
        fst (resolve_choice w job q options s) = Ok (fallback_answer q)).
Proof.
  split.
  - intros H.
    destruct (H failing_llm (fun _ => "") broken_page ashby_job (start empty_bank))
      as [u Hu].
    discriminate Hu.
  - intros H.
    specialize (H failing_llm "Acme - Product Manager" relocation_question yes_no
                  (start empty_bank) "APIConnectionError" eq_refl eq_refl).
    discriminate H.
Qed.

(** The amended C9 on a page with a free-text question and a dropdown,
    with an LLM whose every call raises. *)
Lemma answerer_catches_llm_errors_witness :
  (exists u, fst (handle_all_questions failing_llm (fun _ => "") two_question_page
                    ashby_job (start empty_bank)) = Ok u)
  /\ fst (resolve_text failing_llm "Acme - Product Manager" "When can you start?"
            (start empty_bank))
     = Ok (fallback_answer "When can you start?")
  /\ fst (resolve_choice failing_llm "Acme - Product Manager" relocation_question
            ["Yes"; "No"] (start empty_bank)) = Ok "Yes".
Proof.
  split; [|split].
  - exact (proj1 (answerer_catches_llm_errors failing_llm (fun _ => ""))
                 two_question_page ashby_job (CStr "Acme") (CStr "Product Manager")
                 _ _ _ (start empty_bank) eq_refl eq_refl eq_refl eq_refl eq_refl).
  - exact (proj1 (proj2 (answerer_catches_llm_errors failing_llm (fun _ => "")))
                 "Acme - Product Manager" "When can you start?" (start empty_bank)
                 eq_refl eq_refl).
  - exact (proj2 (proj2 (answerer_catches_llm_errors failing_llm (fun _ => "")))
                 "Acme - Product Manager" relocation_question "Yes" ["No"]
                 (start empty_bank) eq_refl eq_refl).
Defined.

End AnswererFacts.

(* ================================================================== *)
(** * Further properties of the code *)

(** ** Normalising a question *)

Module KeyFacts.
Import PyStr PyStrFacts QAMemoryBank.

Lemma lower_ascii_idem c : lower_ascii (lower_ascii c) = lower_ascii c.
Proof. destruct c as [[] [] [] [] [] [] [] []]; reflexivity. Qed.


Lemma lower_idem s : lower (lower s) = lower s.
Proof. induction s as [|c s IH]; simpl; [reflexivity | now rewrite lower_ascii_idem, IH]. Qed.














Lemma set_keys_present {V} k (v v0 : V) d :
  PyDict.get k d = Some v0 -> map fst (PyDict.set k v d) = map fst d.
Proof.
  induction d as [|[k' v'] d IH]; simpl; [discriminate|].
  destruct (String.eqb k k') eqn:E; simpl; [reflexivity|].
  intros H. now rewrite IH.
Qed.

Lemma set_keys_absent {V} k (v : V) d :
  PyDict.get k d = None -> map fst (PyDict.set k v d) = (map fst d ++ [k])%list.
Proof.
  induction d as [|[k' v'] d IH]; simpl; [reflexivity|].
  destruct (String.eqb k k') eqn:E; simpl; [discriminate|].
  intros H. now rewrite IH.
Qed.

(** X4. Saving a question anew overwrites its cache entry in place, so the
    cache keeps one entry per question in the order of first saving, while
    the sheet receives one more row each time it takes the append: the
    sheet, unlike the cache, collects duplicates. *)
Theorem save_answer_overwrites_cache_appends_sheet now b q a ctx :
  (forall e, PyDict.get (strip (lower q)) (cache b) = Some e ->
     map fst (cache (save_answer true now b q a ctx)) = map fst (cache b))
  /\ (PyDict.get (strip (lower q)) (cache b) = None ->
     map fst (cache (save_answer true now b q a ctx))
     = (map fst (cache b) ++ [strip (lower q)])%list)
  /\ sheet (save_answer true now b q a ctx)
     = (sheet b ++ [mkRow q a ctx 1 now])%list
  /\ sheet (save_answer false now b q a ctx) = sheet b
  /\ length (sheet (save_answer true now (save_answer true now b q a ctx) q a ctx))
     = S (S (length (sheet b)))
  /\ map fst (cache (save_answer true now (save_answer true now b q a ctx) q a ctx))
     = map fst (cache (save_answer true now b q a ctx)).
Proof.
  repeat split.
  - intros e He. simpl. exact (set_keys_present _ _ _ _ He).
  - intros Hn. simpl. exact (set_keys_absent _ _ _ Hn).
  - simpl. rewrite !length_app. simpl. lia.
  - simpl. apply set_keys_present with (v0 := mkEntry a ctx 1).
    apply PyDictFacts.get_set_same.
Qed.

End KeyFacts.

(** ** More on the ATS detector *)

Module AtsMoreFacts.
Import PyStr PyStrFacts Py Ats.

(** X5. Whatever the page is, and also when its content cannot be read, the
    detector answers with one of the six vendor names. *)
Theorem detect_ats_answers_in_enum p :
  In (detect_ats p) ["ashby"; "greenhouse"; "workday"; "lever"; "bamboohr"; "unknown"].
Proof. exact (OrchestratorFacts.detect_ats_in_enum p). Qed.

(** X6. The content test for Ashby asks for "ashby" and for "ashbyhq"; the
    second contains the first, so on a page whose URL names no vendor the
    answer is "ashby" exactly when the lowered content contains
    "ashbyhq". *)
Theorem detect_ats_content_ashby_is_ashbyhq p content :
  contains "ashbyhq.com" (lower (page_url p)) = false ->
  contains "greenhouse.io" (lower (page_url p)) = false ->
  contains "boards.greenhouse" (lower (page_url p)) = false ->
  contains "myworkdayjobs.com" (lower (page_url p)) = false ->
  contains "lever.co" (lower (page_url p)) = false ->
  contains "bamboohr.com" (lower (page_url p)) = false ->
  page_content p = Ok content ->
  (detect_ats p = "ashby" <-> contains "ashbyhq" (lower content) = true).
Proof.
  intros H1 H2 H3 H4 H5 H6 Hc.
  unfold detect_ats. rewrite H1, H2, H3, H4, H5, H6, Hc. simpl.
  destruct (contains "ashbyhq" (lower content)) eqn:Eb.
  - assert (Ea : contains "ashby" (lower content) = true)
      by (apply contains_trans with (sub := "ashbyhq"); [reflexivity | exact Eb]).
    rewrite Ea. simpl. split; reflexivity.
  - rewrite andb_false_r.
    destruct (contains "greenhouse" (lower content));
      [|destruct (contains "workday" (lower content))]; split; discriminate.
Qed.

Lemma detect_ats_content_ashby_is_ashbyhq_witness :
  detect_ats (mkPage "https://careers.acme.com/apply"
                     (Ok "<iframe src=https://jobs.ashbyhq.com/acme></iframe>"))
  = "ashby".
Proof.
  apply (detect_ats_content_ashby_is_ashbyhq
           (mkPage "https://careers.acme.com/apply"
                   (Ok "<iframe src=https://jobs.ashbyhq.com/acme></iframe>"))
           "<iframe src=https://jobs.ashbyhq.com/acme></iframe>");
    reflexivity.
Defined.

(** X7. Lever and BambooHR are recognised by the URL only: the content of a
    page never makes the detector answer "lever" or "bamboohr". *)
Theorem detect_ats_lever_bamboohr_by_url_only p :
  detect_ats p = "lever" \/ detect_ats p = "bamboohr" ->
  contains "lever.co" (lower (page_url p)) = true \/
  contains "bamboohr.com" (lower (page_url p)) = true.
Proof.
  unfold detect_ats.
  destruct (contains "ashbyhq.com" (lower (page_url p))); [intros [H|H]; discriminate|].
  destruct (contains "greenhouse.io" (lower (page_url p)) ||
            contains "boards.greenhouse" (lower (page_url p)))%bool;
    [intros [H|H]; discriminate|].
  destruct (contains "myworkdayjobs.com" (lower (page_url p)));
    [intros [H|H]; discriminate|].
  destruct (contains "lever.co" (lower (page_url p))); [intros _; now left|].
  destruct (contains "bamboohr.com" (lower (page_url p))); [intros _; now right|].
  destruct (page_content p) as [content|e]; [|intros [H|H]; discriminate].
  destruct (contains "ashby" (lower content) && contains "ashbyhq" (lower content))%bool;
    [intros [H|H]; discriminate|].
  destruct (contains "greenhouse" (lower content)); [intros [H|H]; discriminate|].
  destruct (contains "workday" (lower content)); intros [H|H]; discriminate.
Qed.

Lemma detect_ats_lever_bamboohr_by_url_only_witness :
  contains "lever.co" (lower "https://jobs.Lever.co/acme/42") = true \/
  contains "bamboohr.com" (lower "https://jobs.Lever.co/acme/42") = true.
Proof.
  apply (detect_ats_lever_bamboohr_by_url_only
           (mkPage "https://jobs.Lever.co/acme/42" (Ok "Powered by Greenhouse"))).
  left. reflexivity.
Defined.

(** X8. Detection ignores letter case, in the URL and in the content. *)
Theorem detect_ats_ignores_case u content :
  detect_ats (mkPage (lower u) (Ok (lower content))) = detect_ats (mkPage u (Ok content)).
Proof. unfold detect_ats. simpl. now rewrite !KeyFacts.lower_idem. Qed.

End AtsMoreFacts.

(** ** More on the posted time *)

Module PostedFacts.
Import PyStr Py Sheet Jobs.



End PostedFacts.

(** ** More on the job selection *)

Module SelectionFacts.
Import PyStr Py Sheet Jobs Views.

Section Selection.

Variable float_of_str : string -> option float.

Lemma located_shift i r rs j : located (i + 1) rs j -> located i (r :: rs) j.
Proof.
  intros [k [Hr [Hn Hs]]]. exists (S k). repeat split; [lia | exact Hn | exact Hs].
Qed.

Lemma collect_ready_located rs : forall i acc,
  exists new,
    snd (collect_ready float_of_str i rs acc) = (acc ++ new)%list
    /\ Forall (located i rs) new.
Proof.
  induction rs as [|r rs IH]; intros i acc.
  - exists []. simpl. now rewrite app_nil_r.
  - cbn [collect_ready]. fold (ready r). unfold bind.
    destruct (ready r) eqn:Er.
    + destruct (float_of_cell float_of_str (get_default r "Score" (CInt 0)) acc)
        as [[score|e] s1] eqn:E1.
      * assert (s1 = acc) as ->.
        { revert E1. unfold float_of_cell, ret, raise.
          destruct (get_default r "Score" (CInt 0)) as [z|f|s];
            [destruct (is_infinite _) | | destruct (float_of_str s)];
            intros H; inversion H; reflexivity. }
        destruct (posted_days_of_cell (get_default r "Posted Time" (CStr "")) acc)
          as [[days|e] s2] eqn:E2.
        -- assert (s2 = acc) as ->.
           { revert E2. unfold posted_days_of_cell, ret, raise.
             destruct (get_default r "Posted Time" (CStr ""));
               intros H; inversion H; reflexivity. }
           unfold modify.
           destruct (IH (i + 1)%Z (acc ++ [mkJob i r (priority_of score days)])%list)
             as [new [Hs Hf]].
           exists (mkJob i r (priority_of score days) :: new). split.
           ++ rewrite Hs, <- app_assoc. reflexivity.
           ++ constructor.
              ** exists 0%nat. repeat split; [simpl; lia | exact Er].
              ** eapply Forall_impl; [|exact Hf]. intros j. apply located_shift.
        -- exists []. simpl.
           assert (s2 = acc) as ->.
           { revert E2. unfold posted_days_of_cell, ret, raise.
             destruct (get_default r "Posted Time" (CStr ""));
               intros H; inversion H; reflexivity. }
           now rewrite app_nil_r.
      * exists []. simpl.
        assert (s1 = acc) as ->.
        { revert E1. unfold float_of_cell, ret, raise.
          destruct (get_default r "Score" (CInt 0)) as [z|f|s];
            [destruct (is_infinite _) | | destruct (float_of_str s)];
            intros H; inversion H; reflexivity. }
        now rewrite app_nil_r.
    + unfold ret. destruct (IH (i + 1)%Z acc) as [new [Hs Hf]].
      exists new. split; [exact Hs|].
      eapply Forall_impl; [|exact Hf]. intros j. apply located_shift.
Qed.

Lemma in_insert_desc j x l : In j (insert_desc x l) <-> j = x \/ In j l.
Proof.
  induction l as [|y l IH]; simpl.
  - intuition congruence.
  - destruct (PrimFloat.ltb (priority y) (priority x)); simpl.
    + intuition congruence.
    + rewrite IH. intuition congruence.
Qed.

Lemma in_sort_fold j l : forall acc,
  In j (fold_left (fun acc x => insert_desc x acc) l acc) <-> In j l \/ In j acc.
Proof.
  induction l as [|x l IH]; intros acc; simpl.
  - tauto.
  - rewrite IH, in_insert_desc. intuition congruence.
Qed.

(** Sorting keeps the jobs: what is in the sorted list was collected. *)
Lemma in_sort_desc j l : In j (sort_desc l) <-> In j l.
Proof. unfold sort_desc. rewrite in_sort_fold. simpl. tauto. Qed.

(** X11. The job [get_next_job] returns is a row of the sheet that passed the
    Status test (Status "Ready" or "unknown"), and its row number, counted
    from 2 for the first record, locates its record in the sheet: the status
    written back later goes to the row that was read. *)
Theorem get_next_job_returns_a_ready_row rs j :
  get_next_job float_of_str (Ok rs) = Some j ->
  (2 <= row j)%Z
  /\ nth_error rs (Z.to_nat (row j - 2)) = Some (data j)
  /\ ready (data j) = true.
Proof.
  unfold get_next_job.
  destruct (collect_ready_located rs 2 []) as [new [Hs Hf]].
  destruct (collect_ready float_of_str 2 rs []) as [[[]|e] ready_jobs];
    [|discriminate].
  simpl in Hs. subst ready_jobs.
  destruct (sort_desc new) as [|j' l] eqn:E; [discriminate|].
  intros H. injection H as ->.
  assert (Hin : In j new) by (apply in_sort_desc; rewrite E; now left).
  rewrite Forall_forall in Hf. destruct (Hf j Hin) as [k [Hr [Hn Hst]]].
  repeat split; [lia | | exact Hst].
  replace (Z.to_nat (row j - 2)) with k by lia. exact Hn.
Qed.

(** X12. A sheet without a row that passes the Status test gives no job. *)
Theorem get_next_job_none_without_ready_rows rs :
  existsb ready rs = false ->
  get_next_job float_of_str (Ok rs) = None.
Proof.
  intros H. unfold get_next_job.
  assert (G : forall i acc, collect_ready float_of_str i rs acc = (Ok tt, acc)).
  { induction rs as [|r rs IH]; intros i acc; [reflexivity|].
    simpl in H. apply orb_false_elim in H. destruct H as [Hr Hrs].
    cbn [collect_ready]. fold (ready r). rewrite Hr. unfold bind, ret.
    apply IH. exact Hrs. }
  rewrite G. reflexivity.
Qed.

(** X13. One ready row whose Score is a text that [float] rejects makes
    [get_next_job] give no job at all, however good the other rows are: the
    error is caught around the whole selection. *)
Theorem get_next_job_none_on_bad_score rs r s :
  In r rs ->
  ready r = true ->
  get_default r "Score" (CInt 0) = CStr s ->
  float_of_str s = None ->
  get_next_job float_of_str (Ok rs) = None.
Proof.
  intros Hin Hr Hs Hf. unfold get_next_job.
  assert (G : forall i acc, exists e acc',
               collect_ready float_of_str i rs acc = (Raise e, acc')).
  { induction rs as [|r0 rs IH]; intros i acc; [destruct Hin|].
    cbn [collect_ready]. unfold bind.
    destruct Hin as [->|Hin].
    - fold (ready r). rewrite Hr, Hs. unfold float_of_cell. rewrite Hf.
      unfold raise. eauto.
    - match goal with
      | |- context [match ?X with pair _ _ => _ end] => destruct X as [[[]|e] acc1]
      end.
      + apply IH. exact Hin.
      + eauto. }
  destruct (G 2%Z []) as [e [acc' ->]]. reflexivity.
Qed.

End Selection.

Lemma get_next_job_returns_a_ready_row_witness :
  (2 <= 3)%Z
  /\ nth_error [applied_row; ready_row] (Z.to_nat (3 - 2)) = Some ready_row
  /\ ready ready_row = true.
Proof.
  exact (get_next_job_returns_a_ready_row no_float [applied_row; ready_row]
           (mkJob 3 ready_row (priority_of 7 0)) eq_refl).
Defined.

Lemma get_next_job_none_without_ready_rows_witness :
  get_next_job no_float (Ok [applied_row]) = None.
Proof.
  apply (get_next_job_none_without_ready_rows no_float [applied_row]). reflexivity.
Defined.

Lemma get_next_job_none_on_bad_score_witness :
  get_next_job no_float (Ok [applied_row; ready_row; bad_score_row]) = None.
Proof.
  apply (get_next_job_none_on_bad_score no_float
           [applied_row; ready_row; bad_score_row] bad_score_row "n/a").
  - right. right. left. reflexivity.
  - reflexivity.
  - reflexivity.
  - reflexivity.
Defined.

End SelectionFacts.

(** ** The tracking link *)

Module UtmFacts.
Import PyStr PyStrFacts Py Sheet Utm.

Lemma slug_char_not_dash c : is_slug_char c = true -> Ascii.eqb c "-" = false.
Proof. destruct c as [[] [] [] [] [] [] [] []]; vm_compute; intros H; congruence. Qed.

Lemma all_chars_sub_runs b s : all_chars slug_or_dash (sub_runs b s) = true.
Proof.
  revert b. induction s as [|c s IH]; intros b; simpl; [reflexivity|].
  destruct (is_slug_char c) eqn:E.
  - simpl. unfold slug_or_dash at 1. now rewrite E, IH.
  - destruct b; simpl; now rewrite IH.
Qed.

Lemma all_chars_lstrip_char p ch s :
  all_chars p s = true -> all_chars p (lstrip_char ch s) = true.
Proof.
  induction s as [|c s IH]; simpl; [reflexivity|].
  intros H. apply andb_true_iff in H. destruct H as [Hc Hs].
  destruct (Ascii.eqb c ch); [now apply IH | simpl; now rewrite Hc, Hs].
Qed.

Lemma all_chars_rstrip_char p ch s :
  all_chars p s = true -> all_chars p (rstrip_char ch s) = true.
Proof.
  induction s as [|c s IH]; simpl; [reflexivity|].
  intros H. apply andb_true_iff in H. destruct H as [Hc Hs].
  specialize (IH Hs). destruct (rstrip_char ch s) as [|d r].
  - destruct (Ascii.eqb c ch); simpl; [reflexivity | now rewrite Hc].
  - simpl in *. now rewrite Hc, IH.
Qed.

Lemma all_chars_prefix p n s :
  all_chars p s = true -> all_chars p (substring 0 n s) = true.
Proof.
  revert s. induction n as [|n IH]; intros s; destruct s as [|c s]; simpl;
    try reflexivity.
  intros H. apply andb_true_iff in H. destruct H as [Hc Hs].
  now rewrite Hc, IH.
Qed.

Lemma length_prefix n s : String.length (substring 0 n s) <= n.
Proof.
  revert s. induction n as [|n IH]; intros s; destruct s as [|c s]; simpl;
    try lia.
  specialize (IH s). lia.
Qed.

(** What [lstrip_char] returns does not start with the character. *)
Lemma lstrip_char_head ch s t : lstrip_char ch s <> String ch t.
Proof.
  induction s as [|c s IH]; simpl; [discriminate|].
  destruct (Ascii.eqb c ch) eqn:E; [exact IH|].
  intros H. injection H as -> _. now rewrite Ascii.eqb_refl in E.
Qed.

(** What [rstrip_char] returns does not end with the character. *)
Lemma rstrip_char_last ch s : forall t, rstrip_char ch s <> t ++ String ch EmptyString.
Proof.
  induction s as [|c s IH]; intros t; simpl.
  - destruct t; discriminate.
  - destruct (rstrip_char ch s) as [|d r] eqn:E.
    + destruct (Ascii.eqb c ch) eqn:Ec.
      * destruct t; discriminate.
      * destruct t as [|x t]; simpl; intros H.
        -- injection H as ->. now rewrite Ascii.eqb_refl in Ec.
        -- injection H as _ H. destruct t; discriminate.
    + destruct t as [|x t]; simpl; intros H.
      * discriminate.
      * injection H as _ H. exact (IH t H).
Qed.

(** [rstrip_char] keeps the first character of a string that does not
    start with the stripped one. *)
Lemma rstrip_char_head ch s t :
  (forall u, s <> String ch u) -> rstrip_char ch s <> String ch t.
Proof.
  destruct s as [|c s]; simpl; intros Hs; [discriminate|].
  assert (Ec : Ascii.eqb c ch = false).
  { destruct (Ascii.eqb c ch) eqn:E; [|reflexivity].
    apply Ascii.eqb_eq in E. subst c. now elim (Hs s). }
  destruct (rstrip_char ch s); [rewrite Ec|]; intros H; injection H as ->;
    now rewrite Ascii.eqb_refl in Ec.
Qed.

(** [lstrip_char] returns a suffix and [rstrip_char] a prefix. *)
Lemma lstrip_char_suffix ch s : exists a, s = a ++ lstrip_char ch s.
Proof.
  induction s as [|c s [a IH]]; simpl; [now exists EmptyString|].
  destruct (Ascii.eqb c ch).
  - exists (String c a). simpl. now rewrite <- IH.
  - now exists EmptyString.
Qed.

Lemma rstrip_char_prefix ch s : exists b, s = rstrip_char ch s ++ b.
Proof.
  induction s as [|c s [b IH]]; simpl; [now exists EmptyString|].
  destruct (rstrip_char ch s) as [|d r].
  - destruct (Ascii.eqb c ch).
    + now exists (String c s).
    + exists b. simpl in *. now rewrite <- IH.
  - exists b. simpl in *. now rewrite <- IH.
Qed.

Lemma contains_false_strip_char sub ch s :
  contains sub s = false -> contains sub (strip_char ch s) = false.
Proof.
  intros H. destruct (contains sub (strip_char ch s)) eqn:E; [|reflexivity].
  apply contains_split in E. destruct E as [a [b E]].
  unfold strip_char in E.
  destruct (rstrip_char_prefix ch (lstrip_char ch s)) as [tl Ht].
  destruct (lstrip_char_suffix ch s) as [hd Hh].
  assert (C : contains sub s = true).
  { apply contains_split. exists (hd ++ a), (b ++ tl).
    rewrite Hh at 1. rewrite Ht, E. now rewrite !append_assoc. }
  congruence.
Qed.

(** The substitution never writes two dashes in a row, and writes none
    first when it continues a run. *)
Lemma sub_runs_no_double_dash s : forall b,
  contains "--" (sub_runs b s) = false
  /\ (b = true -> starts_with "-" (sub_runs b s) = false).
Proof.
  induction s as [|c s IH]; intros b; cbn [sub_runs];
    [split; [reflexivity | now intros _]|].
  destruct (is_slug_char c) eqn:E.
  - destruct (IH false) as [H1 _].
    pose proof (slug_char_not_dash c E) as Hd. rewrite Ascii.eqb_sym in Hd.
    cbn [contains starts_with]. rewrite Hd, H1. split; [reflexivity | now intros _].
  - destruct b.
    + exact (IH true).
    + destruct (IH true) as [H1 H2]. specialize (H2 eq_refl).
      split; [|discriminate].
      cbn [contains starts_with]. rewrite H1, Ascii.eqb_refl. cbn [andb orb].
      destruct (sub_runs true s) as [|d r]; [reflexivity|].
      cbn [starts_with] in H2 |- *.
      destruct (Ascii.eqb "-" d); [discriminate H2 | reflexivity].
Qed.

Lemma slug_shape s :
  all_chars slug_or_dash (slug s) = true
  /\ (forall t, slug s <> String "-" t)
  /\ (forall t, slug s <> t ++ "-")
  /\ contains "--" (slug s) = false.
Proof.
  unfold slug, strip_char. repeat split.
  - apply all_chars_rstrip_char, all_chars_lstrip_char, all_chars_sub_runs.
  - intros t. apply rstrip_char_head. intros u. apply lstrip_char_head.
  - intros t. apply rstrip_char_last.
  - apply (contains_false_strip_char "--" "-").
    apply (sub_runs_no_double_dash (lower s) false).
Qed.

(** X14. The link [generate_utm_link] returns is the fixed prefix followed by
    the company slug, a dash and the role slug. Both slugs consist of
    lower-case letters, digits and dashes only, whatever the company and
    the title contain; the company slug neither starts nor ends with a dash
    and has no two dashes in a row; the role slug has at most 20
    characters. *)
Theorem generate_utm_link_is_url_safe {S} job link (s s' : S) :
  generate_utm_link job s = (Ok link, s') ->
  exists company_slug role_slug,
    link = utm_prefix ++ company_slug ++ "-" ++ role_slug
    /\ all_chars slug_or_dash company_slug = true
    /\ all_chars slug_or_dash role_slug = true
    /\ String.length role_slug <= 20
    /\ (forall t, company_slug <> String "-" t)
    /\ (forall t, company_slug <> t ++ "-")
    /\ contains "--" company_slug = false.
Proof.
  unfold generate_utm_link, bind, index, as_str, ret, raise.
  destruct (PyDict.get "Company" job) as [[z|f|company]|]; try discriminate.
  destruct (PyDict.get "Title" job) as [[z|f|title]|]; try discriminate.
  intros H. injection H as <- _.
  exists (slug company), (substring 0 20 (slug title)).
  destruct (slug_shape company) as [H1 [H2 [H3 H4]]].
  destruct (slug_shape title) as [G1 _].
  repeat split; try assumption.
  - now apply all_chars_prefix.
  - apply length_prefix.
Qed.

Lemma generate_utm_link_is_url_safe_witness :
  exists company_slug role_slug,
    "https://isaiah.pegues.io?utm_source=job_app&utm_medium=ashby&utm_campaign=acme-co-senior-product-manag"
    = utm_prefix ++ company_slug ++ "-" ++ role_slug
    /\ all_chars slug_or_dash company_slug = true
    /\ all_chars slug_or_dash role_slug = true
    /\ String.length role_slug <= 20
    /\ (forall t, company_slug <> String "-" t)
    /\ (forall t, company_slug <> t ++ "-")
    /\ contains "--" company_slug = false.
Proof.
  exact (generate_utm_link_is_url_safe
           [("Company", CStr "ACME & Co."); ("Title", CStr "Senior Product Manager (m/f/d)")]
           _ tt tt eq_refl).
Defined.

(** The cut of the role slug to 20 characters comes after the dashes were
    stripped, so a role slug can end with a dash, and the link with it. *)
Remark role_slug_may_end_with_a_dash :
  @generate_utm_link unit
    [("Company", CStr "Acme"); ("Title", CStr "Senior Data Product Manager")] tt
  = (Ok (utm_prefix ++ "acme" ++ "-" ++ "senior-data-product-"), tt).
Proof. reflexivity. Qed.

End UtmFacts.

(** ** More on one application attempt *)

Module AttemptFacts.
Import PyStr Py PyFacts Sheet Ats Orchestrator Cases.

(** One step of a case analysis along the run of [apply_to_job]. *)
Ltac run_step :=
  match goal with
  | H : (_, _) = (_, _) |- _ => inversion H; subst; clear H
  | H : context [match ?x with _ => _ end] |- _ =>
      let E := fresh "E" in destruct x eqn:E; simpl in H
  end.

Ltac run_apply_to_job H :=
  unfold apply_to_job, apply_to_job_try, capture_screenshot, try_except, bind, index,
    await, get, ret, raise, set_success, set_ats_type, set_error, set_screenshot,
    count_unsupported, modify, handle_easy_apply, apply_greenhouse, apply_workday,
    fresh in H;
  repeat run_step; simpl.

(** X15. With a Job ID in the record, [apply_to_job] returns a result whatever
    the browser and the fillers do: every exception of the attempt ends in
    the result's error field. *)
Theorem apply_to_job_returns_with_job_id w job id s :
  PyDict.get "Job ID" job = Some id ->
  exists r, fst (apply_to_job w job s) = Ok r.
Proof.
  intros Hid. revert s. change (returns (apply_to_job w job)).
  unfold apply_to_job. apply returns_bind.
  - apply returns_try_except. intros e.
    unfold set_error, capture_screenshot, set_screenshot, index. rewrite Hid.
    repeat (apply returns_bind; [|intros ?]);
      first [apply returns_modify | apply returns_ret].
  - intros _. apply returns_bind; [apply returns_get | intros a; apply returns_ret].
Qed.

Lemma apply_to_job_returns_with_job_id_witness :
  exists r, fst (apply_to_job lever_world acme_job (fresh 0)) = Ok r.
Proof.
  exact (apply_to_job_returns_with_job_id lever_world acme_job (CInt 4012345678)
           (fresh 0) eq_refl).
Defined.

(** X16. An attempt succeeds only through the Ashby filler: a result with
    [success] set has the type "ashby", and one of the two calls of
    [apply_ashby] has answered [True]. Greenhouse, Workday and Easy Apply
    pages never yield a success. *)
Theorem apply_to_job_succeeds_only_through_ashby w job n r s' :
  apply_to_job w job (fresh n) = (Ok r, s') ->
  success r = true ->
  ats_type r = "ashby"
  /\ (apply_ashby_landing w = Ok true \/ apply_ashby_new w = Ok true).
Proof.
  intros H. run_apply_to_job H; intros Hs; try discriminate Hs; subst;
    repeat match goal with
           | E : String.eqb _ _ = true |- _ => apply String.eqb_eq in E
           end;
    split; solve [reflexivity | assumption | now left | now right].
Qed.

Lemma apply_to_job_succeeds_only_through_ashby_witness :
  "ashby" = "ashby"
  /\ (apply_ashby_landing ashby_direct_world = Ok true
      \/ apply_ashby_new ashby_direct_world = Ok true).
Proof.
  exact (apply_to_job_succeeds_only_through_ashby ashby_direct_world acme_job 0
           (mkResult true "ashby" None None) (mkApp (mkResult true "ashby" None None) 0)
           eq_refl eq_refl).
Defined.

(** X17. The counter of unsupported vendors grows by at most one per attempt,
    and only for an attempt that did not succeed on a page classified as
    lever, bamboohr or unknown. *)
Theorem apply_to_job_counts_unsupported w job n r s' :
  apply_to_job w job (fresh n) = (Ok r, s') ->
  unsupported_ats s' = n
  \/ (unsupported_ats s' = S n
      /\ success r = false
      /\ In (ats_type r) ["lever"; "bamboohr"; "unknown"]).
Proof.
  intros H. run_apply_to_job H; try (left; reflexivity).
  all: right; repeat split; try reflexivity.
  all: match goal with
       | |- _ = detect_ats ?p \/ _ =>
           pose proof (OrchestratorFacts.detect_ats_in_enum p) as Hin;
           unfold ats_enum in Hin; simpl in *;
           repeat match goal with
                  | E : String.eqb _ _ = false |- _ => apply String.eqb_neq in E
                  end;
           intuition congruence
       end.
Qed.

Lemma apply_to_job_counts_unsupported_witness :
  unsupported_ats (snd (apply_to_job lever_world acme_job (fresh 0))) = 0
  \/ (unsupported_ats (snd (apply_to_job lever_world acme_job (fresh 0))) = 1
      /\ false = false
      /\ In "lever" ["lever"; "bamboohr"; "unknown"]).
Proof.
  exact (apply_to_job_counts_unsupported lever_world acme_job 0
           (mkResult false "lever" (Some "Unsupported ATS: lever")
              (Some "data/apply_screenshots/4012345678_20250101_120000.png"))
           _ eq_refl).
Defined.

End AttemptFacts.

(** ** More on the submit stage *)

Module SubmitFacts.
Import PyStr PyStrFacts Py PyFacts Sheet Driver Cases.

Section NeverOk.
Context {S : Type}.

(** A computation that never ends with a value. *)
Definition never_ok {A} (m : M S A) : Prop := forall s a s', m s <> (Ok a, s').

Lemma never_ok_bind_l {A B} (m : M S A) (k : A -> M S B) :
  never_ok m -> never_ok (bind m k).
Proof.
  intros Hm s b s'. unfold bind. destruct (m s) as [[a|e] s1] eqn:E.
  - elim (Hm s a s1 E).
  - discriminate.
Qed.

Lemma never_ok_bind_r {A B} (m : M S A) (k : A -> M S B) :
  (forall a, never_ok (k a)) -> never_ok (bind m k).
Proof.
  intros Hk s b s'. unfold bind. destruct (m s) as [[a|e] s1].
  - apply Hk.
  - discriminate.
Qed.

End NeverOk.

Lemma never_ok_capture {A} job label (k : unit -> M drv A) :
  PyDict.get "Job ID" job = None ->
  never_ok (bind (capture_screenshot job label) k).
Proof.
  intros H. apply never_ok_bind_l. intros s a s'.
  unfold capture_screenshot, bind, index. rewrite H. discriminate.
Qed.

Lemma never_ok_submit_stage w job :
  PyDict.get "Job ID" job = None -> never_ok (submit_stage w job).
Proof.
  intros H. unfold submit_stage.
  repeat first
    [ apply (never_ok_capture _ _ _ H)
    | apply never_ok_bind_r; intros ?
    | progress cbv zeta
    | match goal with
      | |- never_ok (match ?x with _ => _ end) => destruct x
      end ].
Qed.

(** X18. [apply_ashby] answers [True] or [False] exactly when the job record
    has a Job ID: with one, every error of the form filling and of the
    submit stage is turned into [False]; without one, every path ends in a
    screenshot whose name cannot be built, and the handler's own screenshot
    raises [KeyError]. *)
Theorem apply_ashby_returns_iff_job_id w job d :
  (exists b, fst (apply_ashby w job d) = Ok b)
  <-> PyDict.get "Job ID" job <> None.
Proof.
  split.
  - intros [b Hb] Hn. unfold apply_ashby, try_except in Hb.
    destruct (bind (await (filled w)) (fun _ => submit_stage w job) d)
      as [[b'|e] d1] eqn:E.
    + revert E. apply never_ok_bind_r. intros _. now apply never_ok_submit_stage.
    + revert Hb. unfold bind, capture_screenshot, index. rewrite Hn. discriminate.
  - intros Hid. destruct (PyDict.get "Job ID" job) as [id|] eqn:E; [|congruence].
    revert d. change (returns (apply_ashby w job)).
    unfold apply_ashby. apply returns_try_except. intros e.
    unfold capture_screenshot, index. rewrite E.
    repeat (apply returns_bind; [|intros ?]);
      first [apply returns_modify | apply returns_ret].
Qed.






Lemma find_submit_none w sels d :
  (forall sel, In sel sels -> query_selector w sel = Ok None) ->
  find_submit w sels d = (Ok None, d).
Proof.
  induction sels as [|sel sels IH]; intros H; cbn [find_submit]; [reflexivity|].
  unfold bind, await. rewrite (H sel (or_introl eq_refl)).
  apply IH. intros s Hs. apply H. now right.
Qed.

(** X20. When none of the five submit selectors finds a control, the attempt
    fails without a click: the only thing done is the "no_submit_btn"
    screenshot. *)
Theorem apply_ashby_without_submit_control w job id d :
  filled w = Ok tt -> settle w = Ok tt -> debug_form_fields w = Ok tt ->
  PyDict.get "Job ID" job = Some id ->
  (forall sel, In sel submit_selectors -> query_selector w sel = Ok None) ->
  apply_ashby w job d
  = (Ok false, mkDrv (url d) (trace d ++ [Screenshot "no_submit_btn"])).
Proof.
  intros Hf Hs Hd Hid Hq.
  unfold apply_ashby, try_except, submit_stage, bind, await.
  rewrite Hf, Hs, (find_submit_none _ _ _ Hq), Hd.
  unfold capture_screenshot, bind, index, modify, ret. now rewrite Hid.
Qed.

Lemma apply_ashby_without_submit_control_witness :
  apply_ashby no_submit_world acme_job (mkDrv Scenarios.form_url [])
  = (Ok false, mkDrv Scenarios.form_url [Screenshot "no_submit_btn"]).
Proof.
  apply (apply_ashby_without_submit_control no_submit_world acme_job (CInt 4012345678)
           (mkDrv Scenarios.form_url [])); reflexivity.
Defined.

(** X21. A submit control that the page reports invisible or not enabled, or
    whose [disabled] attribute has a non-empty value, is never clicked: the
    submit stage makes no click at all. *)
Theorem blocked_control_is_never_clicked w job b (visible enabled : bool) disabled d :
  find_submit w submit_selectors d = (Ok (Some b), d) ->
  settle w = Ok tt ->
  scroll_into_view b = Ok tt ->
  is_visible b = Ok visible -> is_enabled b = Ok enabled ->
  disabled_attr b = Ok disabled ->
  visible = false \/ enabled = false \/ (exists v, disabled = Some v /\ v <> "") ->
  clicks (trace (snd (submit_stage w job d))) = clicks (trace d).
Proof.
  intros Hf Hs Hsc Hv He Hd Hb.
  apply (DriverFacts.submit_stage_blocked_no_click w job b visible enabled disabled d);
    try assumption.
  destruct Hb as [->|[->|[v [-> Hne]]]].
  - reflexivity.
  - now rewrite orb_true_r.
  - simpl. destruct v; [congruence|]. now rewrite !orb_true_r.
Qed.

Lemma blocked_control_is_never_clicked_witness :
  clicks (trace (snd (submit_stage greyed_world acme_job (mkDrv Scenarios.form_url []))))
  = [].
Proof.
  apply (blocked_control_is_never_clicked greyed_world acme_job greyed_button
           true false None (mkDrv Scenarios.form_url [])); try reflexivity.
  right. left. reflexivity.
Defined.

End SubmitFacts.

(** ** More on the question answerer *)

Module AnswererMoreFacts.
Import PyStr Py PyFacts Sheet QAMemoryBank QAMemoryBankFacts Answerer AnswererFacts.
Import CustomQuestions Cases.

Lemma fallback_answer_nonempty q : fallback_answer q <> "".
Proof.
  unfold fallback_answer.
  repeat match goal with
         | |- (if ?c then _ else _) <> _ => destruct c
         end; discriminate.
Qed.

(** X22. A canned answer sticks: once a failed LLM call has ended in the canned
    answer of a free-text question, that answer is what the memory holds,
    and every later call for the question, also with a working LLM and for
    another job, returns it without asking the LLM and without saving. *)
Theorem canned_answer_sticks w w' job job' q s :
  truthy_opt (get_answer (memory s) (strip (lower q))) = false ->
  llm_fails (llm w (llm_calls s)) = true ->
  fst (resolve_text w job q s) = Ok (fallback_answer q)
  /\ resolve_text w' job' q (snd (resolve_text w job q s))
     = (Ok (fallback_answer q), snd (resolve_text w job q s)).
Proof.
  intros Hm Hf. rewrite (resolve_text_miss _ _ _ _ Hm). simpl fst. simpl snd.
  assert (Hr : text_reply w q s = fallback_answer q).
  { unfold text_reply. destruct (llm w (llm_calls s)) as [e|[c|]];
      [reflexivity | discriminate Hf | reflexivity]. }
  rewrite Hr. split; [reflexivity|].
  unfold resolve_text, bind, get, saved. cbn [memory].
  rewrite get_answer_saved. unfold truthy_opt.
  rewrite (truthy_nonempty _ (fallback_answer_nonempty q)). reflexivity.
Qed.

Lemma canned_answer_sticks_witness :
  fst (resolve_text Scenarios.failing_llm "Acme - Product Manager" "When can you start?"
         (Scenarios.start Scenarios.empty_bank))
  = Ok (fallback_answer "When can you start?")
  /\ resolve_text Scenarios.vague_llm "Initech - Designer" "When can you start?"
       (snd (resolve_text Scenarios.failing_llm "Acme - Product Manager"
               "When can you start?" (Scenarios.start Scenarios.empty_bank)))
     = (Ok (fallback_answer "When can you start?"),
        snd (resolve_text Scenarios.failing_llm "Acme - Product Manager"
               "When can you start?" (Scenarios.start Scenarios.empty_bank))).
Proof.
  apply (canned_answer_sticks Scenarios.failing_llm Scenarios.vague_llm
           "Acme - Product Manager" "Initech - Designer" "When can you start?"
           (Scenarios.start Scenarios.empty_bank)); reflexivity.
Defined.

(** What [generate_answer] does, case by case. *)
Lemma generate_answer_cases w client job q s :
  (exists a,
      fst (generate_answer w client job q s) = Ok a
      /\ memory (snd (generate_answer w client job q s)) = memory s
      /\ (a = fallback_answer q
          \/ exists content, llm w (llm_calls s) = LlmContent (Some content)
                             /\ a = strip content))
  /\ (client = false \/ PyDict.get "Score" job = None ->
      generate_answer w client job q s = (Ok (fallback_answer q), s)).
Proof.
  unfold generate_answer, try_except, bind, index, ask_llm, ret, raise.
  destruct client; simpl.
  - destruct (PyDict.get "Company" job) as [c|];
      [destruct (PyDict.get "Title" job) as [t|];
       [destruct (PyDict.get "Score" job) as [sc|]|]|].
    + destruct (llm w (llm_calls s)) as [e|[content|]] eqn:E; simpl.
      * split; [eexists; repeat split; now left | intros [H|H]; discriminate].
      * split; [|intros [H|H]; discriminate].
        eexists; repeat split. right. now exists content.
      * split; [eexists; repeat split; now left | intros [H|H]; discriminate].
    + split; [eexists; repeat split; now left | reflexivity].
    + split; [eexists; repeat split; now left | reflexivity].
    + split; [eexists; repeat split; now left | reflexivity].
  - split; [eexists; repeat split; now left | reflexivity].
Qed.

(** X23. [generate_answer] never raises and never touches the memory: it
    returns the canned answer or the stripped content of the LLM's reply.
    Without a client, and also when the job record lacks its Score, it
    returns the canned answer without any call of the LLM. *)
Theorem generate_answer_never_raises w client job q s :
  (exists a,
      fst (generate_answer w client job q s) = Ok a
      /\ memory (snd (generate_answer w client job q s)) = memory s
      /\ (a = fallback_answer q
          \/ exists content, llm w (llm_calls s) = LlmContent (Some content)
                             /\ a = strip content))
  /\ (client = false \/ PyDict.get "Score" job = None ->
      generate_answer w client job q s = (Ok (fallback_answer q), s)).
Proof. exact (generate_answer_cases w client job q s). Qed.

(** X24. In the older handler an answer the memory holds is reused whatever it
    is, the empty string included: when a call for a question ends with an
    answer, every later call for the same label returns that answer and
    leaves the state alone, so the LLM is not asked again. *)
Theorem custom_answer_is_reused w client w' client' str_of_float job job' q s a1 s1 :
  resolve_custom w client str_of_float job q s = (Ok a1, s1) ->
  resolve_custom w' client' str_of_float job' q s1 = (Ok a1, s1).
Proof.
  unfold resolve_custom at 1. unfold bind at 1. unfold get at 1.
  destruct (get_answer (memory s) q) as [a|] eqn:G.
  - unfold ret. intros H. injection H as <- <-.
    unfold resolve_custom, bind, get. now rewrite G.
  - destruct (generate_answer_cases w client job q s) as [[a [Ha [Hm _]]] _].
    unfold bind.
    destruct (generate_answer w client job q s) as [[a'|e] s2]; [|discriminate Ha].
    simpl in Ha, Hm. injection Ha as ->.
    unfold index. destruct (PyDict.get "Company" job) as [c|]; [|discriminate].
    destruct (PyDict.get "Title" job) as [t|]; [|discriminate].
    unfold ret, save, modify. intros H. injection H as <- <-.
    unfold resolve_custom, bind, get. cbn [memory].
    now rewrite get_answer_saved.
Qed.

Lemma custom_answer_is_reused_witness :
  resolve_custom Scenarios.vague_llm true (fun _ => "") acme_job "Anything else?"
    (snd (resolve_custom Scenarios.blank_llm true (fun _ => "") acme_job "Anything else?"
            (Scenarios.start Scenarios.empty_bank)))
  = (Ok "",
     snd (resolve_custom Scenarios.blank_llm true (fun _ => "") acme_job "Anything else?"
            (Scenarios.start Scenarios.empty_bank))).
Proof.
  apply (custom_answer_is_reused Scenarios.blank_llm true Scenarios.vague_llm true
           (fun _ => "") acme_job acme_job "Anything else?"
           (Scenarios.start Scenarios.empty_bank)).
  reflexivity.
Defined.

(** X25. Once its listing has succeeded, the older handler returns for every
    job record, also for one without Company or Title: these are read
    inside the handler of each question. *)
Theorem handle_custom_questions_returns w client str_of_float containers job s :
  exists u,
    fst (handle_custom_questions w client str_of_float (Ok containers) job s) = Ok u.
Proof.
  revert s.
  change (returns (handle_custom_questions w client str_of_float (Ok containers) job)).
  unfold handle_custom_questions. apply returns_bind.
  - intros s. now exists containers.
  - intros l. apply returns_guarded.
Qed.

End AnswererMoreFacts.

(** ** One cycle *)

Module CycleFacts.
Import PyStr Py PyFacts Sheet Jobs Cycle CycleCases.

Section WithConfig.

Variable cfg : config.
Variable float_of_str : string -> option float.
Variable str_of_float : float -> string.

(** The gate opens exactly below the daily limit and, when business hours
    are asked for, from 9 to 18 o'clock, both included. *)
Lemma can_apply_now_open current_hour b :
  fst (can_apply_now cfg current_hour b) = true <->
  (daily_count b < max_daily_applications cfg)%Z
  /\ (business_hours_only cfg = true -> (9 <= current_hour <= 18)%Z).
Proof.
  unfold can_apply_now.
  destruct (Z.geb_spec (daily_count b) (max_daily_applications cfg)) as [Hge|Hlt];
    simpl.
  - split; [discriminate | intros [G _]; lia].
  - destruct (business_hours_only cfg); simpl.
    + destruct (Z.ltb_spec current_hour 9) as [H9|H9]; simpl.
      * split; [discriminate | intros [_ G]; specialize (G eq_refl); lia].
      * rewrite Z.gtb_ltb. destruct (Z.ltb_spec 18 current_hour) as [H18|H18]; simpl.
        -- split; [discriminate | intros [_ G]; specialize (G eq_refl); lia].
        -- split; [intros _; split; [lia | intros _; lia] | reflexivity].
    + split; [intros _; split; [lia | discriminate] | reflexivity].
Qed.


(** What a cycle's bookkeeping reads of the engine. *)
Definition tally (b : bot) : Z * nat * nat * nat :=
  (daily_count b, attempted (session b), successful (session b), failed (session b)).

Lemma write_all_tally cw ups : forall b,
  tally (snd (for_each ups (fun u => write cw (fst u) (snd u)) b)) = tally b.
Proof.
  induction ups as [|u ups IH]; intros b; cbn [for_each]; [reflexivity|].
  unfold bind, write. destruct (write_ok cw (write_calls b)); [|reflexivity].
  now rewrite IH.
Qed.

Lemma update_sheet_status_tally cw row status ats error b :
  fst (update_sheet_status cw row status ats error b) = Ok tt
  /\ tally (snd (update_sheet_status cw row status ats error b)) = tally b.
Proof.
  unfold update_sheet_status, try_except.
  pose proof (write_all_tally cw (status_updates cw row status ats error) b) as H.
  destruct (for_each _ _ b) as [[[]|e] b1]; simpl in *; split;
    solve [reflexivity | exact H].
Qed.

Lemma send_telegram_tally cw message b :
  fst (send_telegram_notification cfg cw message b) = Ok tt
  /\ tally (snd (send_telegram_notification cfg cw message b)) = tally b.
Proof.
  unfold send_telegram_notification.
  destruct (telegram_configured cfg); simpl; [|split; reflexivity].
  destruct (telegram_ok cw); split; reflexivity.
Qed.

(** The four ways a cycle can change the tally: not at all, one attempt
    begun and not finished, one success, one failure; a success only
    happens below the daily limit. *)
Lemma cycle_tally cw b :
  let b' := snd (run_application_cycle cfg float_of_str str_of_float cw b) in
  let '(d, a, s, f) := tally b in
  tally b' = (d, a, s, f)
  \/ tally b' = (d, S a, s, f)
  \/ ((d < max_daily_applications cfg)%Z /\ tally b' = ((d + 1)%Z, S a, S s, f))
  \/ tally b' = (d, S a, s, S f).
Proof.
  unfold run_application_cycle, bind, get.
  destruct (fst (can_apply_now cfg (hour cw) b)) eqn:Eg; cbn [negb fst snd tally];
    [|now left].
  apply can_apply_now_open in Eg. destruct Eg as [Hlt _].
  destruct (get_next_job float_of_str (records cw)) as [job|]; [|now left].
  unfold index, ret, raise.
  destruct (PyDict.get "Title" (data job)) as [title|]; [|now left].
  destruct (PyDict.get "Company" (data job)) as [company|]; [|now left].
  destruct (update_sheet_status_tally cw (row job) "Applying" "" None b) as [U1 T1].
  destruct (update_sheet_status cw (row job) "Applying" "" None b) as [[[]|e] b1];
    [clear U1 | discriminate U1].
  cbn [fst snd] in T1. unfold tally in T1. injection T1 as T1d T1a T1s T1f.
  unfold set_session, modify, await, run_attempt.
  destruct (launch cw) as [[]|e].
  2: { right. left. cbn. now rewrite T1d, T1a, T1s, T1f. }
  destruct (Orchestrator.apply_to_job (attempt cw) (data job) _) as [[r|e] app1];
    cbn [fst snd].
  2: { right. left. cbn. now rewrite T1d, T1a, T1s, T1f. }
  destruct (Orchestrator.success r).
  - match goal with
    | |- context [update_sheet_status cw ?r0 ?st ?at0 ?er ?b0] =>
        destruct (update_sheet_status_tally cw r0 st at0 er b0) as [U2 T2];
        destruct (update_sheet_status cw r0 st at0 er b0) as [[[]|e] b2];
        [clear U2 | discriminate U2]
    end.
    cbn [fst snd] in T2. unfold tally in T2. cbn in T2. injection T2 as T2d T2a T2s T2f.
    right. right. left. split; [exact Hlt|].
    cbn. now rewrite T2d, T2a, T2s, T2f, T1d, T1a, T1s, T1f.
  - match goal with
    | |- context [update_sheet_status cw ?r0 ?st ?at0 ?er ?b0] =>
        destruct (update_sheet_status_tally cw r0 st at0 er b0) as [U2 T2];
        destruct (update_sheet_status cw r0 st at0 er b0) as [[[]|e] b2];
        [clear U2 | discriminate U2]
    end.
    cbn [fst snd] in T2. unfold tally in T2. cbn in T2. injection T2 as T2d T2a T2s T2f.
    right. right. right.
    destruct (PyDict.get "Job URL" (data job)) as [job_url|].
    + match goal with
      | |- context [send_telegram_notification cfg cw ?m ?b0] =>
          destruct (send_telegram_tally cw m b0) as [_ T3];
          destruct (send_telegram_notification cfg cw m b0) as [o3 b3]
      end.
      cbn [fst snd] in T3 |- *. unfold tally in T3 |- *. rewrite T3. cbn.
      now rewrite T2d, T2a, T2s, T2f, T1d, T1a, T1s, T1f.
    + cbn. now rewrite T2d, T2a, T2s, T2f, T1d, T1a, T1s, T1f.
Qed.

(** X27. A cycle never pushes the day's count of applications over the limit,
    and raises it by one at most. *)
Theorem cycle_keeps_daily_limit cw b :
  (daily_count b <= max_daily_applications cfg)%Z ->
  (daily_count b
   <= daily_count (snd (run_application_cycle cfg float_of_str str_of_float cw b))
   <= Z.min (daily_count b + 1) (max_daily_applications cfg))%Z.
Proof.
  intros H. pose proof (cycle_tally cw b) as T. unfold tally in T. simpl in T.
  destruct T as [T|[T|[[Hlt T]|T]]]; injection T as -> _ _ _; lia.
Qed.

(** X28. The session's counters stay consistent over a cycle: the outcomes
    counted never exceed the attempts begun, a cycle begins at most one
    attempt and counts at most one outcome, and the day's count grows
    exactly when a success is counted. *)
Theorem cycle_keeps_session_stats cw b :
  successful (session b) + failed (session b) <= attempted (session b) ->
  let b' := snd (run_application_cycle cfg float_of_str str_of_float cw b) in
  successful (session b') + failed (session b') <= attempted (session b')
  /\ attempted (session b) <= attempted (session b') <= S (attempted (session b))
  /\ successful (session b') + failed (session b')
     <= S (successful (session b) + failed (session b))
  /\ (daily_count b' - daily_count b)%Z
     = Z.of_nat (successful (session b') - successful (session b)).
Proof.
  intros H. pose proof (cycle_tally cw b) as T. unfold tally in T. simpl in T |- *.
  destruct T as [T|[T|[[Hlt T]|T]]]; injection T as -> -> -> ->; lia.
Qed.

End WithConfig.


Lemma cycle_keeps_daily_limit_witness :
  (0 <= daily_count (snd (run_application_cycle default_config Views.no_float
                            (fun _ => "") ashby_cycle fresh_bot))
   <= Z.min (0 + 1) 50)%Z.
Proof.
  apply (cycle_keeps_daily_limit default_config Views.no_float (fun _ => "")
           ashby_cycle fresh_bot).
  vm_compute. discriminate.
Defined.

Lemma cycle_keeps_session_stats_witness :
  let b' := snd (run_application_cycle default_config Views.no_float (fun _ => "")
                   ashby_cycle fresh_bot) in
  successful (session b') + failed (session b') <= attempted (session b')
  /\ 0 <= attempted (session b') <= 1
  /\ successful (session b') + failed (session b') <= 1
  /\ (daily_count b' - 0)%Z = Z.of_nat (successful (session b') - 0).
Proof.
  apply (cycle_keeps_session_stats default_config Views.no_float (fun _ => "")
           ashby_cycle fresh_bot).
  simpl. lia.
Defined.

End CycleFacts.

(** ** Writing a status *)

Module StatusFacts.
Import PyStr Py PyFacts Sheet Cycle CycleCases.

Lemma write_all_prefix cw ups : forall b,
  exists k,
    writes (snd (for_each ups (fun u => write cw (fst u) (snd u)) b))
    = (writes b ++ firstn k ups)%list
    /\ (fst (for_each ups (fun u => write cw (fst u) (snd u)) b) = Ok tt -> k = length ups).
Proof.
  induction ups as [|[c v] ups IH]; intros b; cbn [for_each].
  - exists 0. simpl. rewrite app_nil_r. split; reflexivity.
  - unfold bind. cbn [fst snd].
    destruct (write cw c v b) as [[[]|e] b1] eqn:Ew;
      unfold write in Ew; destruct (write_ok cw (write_calls b));
      inversion Ew; subst; clear Ew.
    + match goal with
      | |- context [for_each ups ?f ?b0] => destruct (IH b0) as [k [Hk Hall]]
      end.
      exists (S k). split.
      * rewrite Hk. cbn [writes firstn]. now rewrite <- app_assoc.
      * intros H. simpl. f_equal. exact (Hall H).
    + exists 0. simpl. rewrite app_nil_r. split; [reflexivity | discriminate].
Qed.

(** X29. [update_sheet_status] never raises, and what it writes is a prefix of
    its updates, in their order: status (column F), ATS type (J), the note
    (Q), then the applied date (P) for the status "Applied" only, then the
    error note (Q) for a non-empty error. The first write that fails ends
    the writing silently, so a row can be left with a new status and the
    other cells old; when every write succeeds all updates are written. *)
Theorem update_sheet_status_writes_a_prefix cw row status ats_type error b :
  fst (update_sheet_status cw row status ats_type error b) = Ok tt
  /\ (exists k,
        writes (snd (update_sheet_status cw row status ats_type error b))
        = (writes b ++ firstn k (status_updates cw row status ats_type error))%list)
  /\ ((forall n, write_ok cw n = true) ->
      writes (snd (update_sheet_status cw row status ats_type error b))
      = (writes b ++ status_updates cw row status ats_type error)%list)
  /\ (In (cell_name "P" row) (map fst (status_updates cw row status ats_type error))
      <-> status = "Applied").
Proof.
  unfold update_sheet_status, try_except.
  destruct (write_all_prefix cw (status_updates cw row status ats_type error) b)
    as [k [Hk Hall]].
  assert (Hok : (forall n, write_ok cw n = true) ->
                forall ups b0, fst (for_each ups (fun u => write cw (fst u) (snd u)) b0)
                               = Ok tt).
  { intros Hw ups. induction ups as [|u ups IH]; intros b0; cbn [for_each];
      [reflexivity|].
    unfold bind, write. rewrite Hw. apply IH. }
  destruct (for_each (status_updates cw row status ats_type error) _ b)
    as [[[]|e] b1] eqn:E; cbn [fst snd] in *.
  - repeat split; [now exists k | | |].
    + intros _. rewrite Hk, (Hall eq_refl). now rewrite firstn_all.
    + unfold status_updates, error_note, cell_name. rewrite !map_app. simpl.
      destruct (String.eqb_spec status "Applied") as [->|Hne]; [reflexivity|].
      intros H. exfalso.
      destruct H as [H|[H|[H|H]]]; try discriminate H.
      apply in_app_or in H. destruct H as [[]|H].
      destruct error as [e|]; [destruct (truthy e)|]; simpl in H;
        try (destruct H as [H|[]]; discriminate H); destruct H.
    + intros ->. unfold status_updates. rewrite !map_app. simpl.
      right. right. right. now left.
  - repeat split; [now exists k | | |].
    + intros Hw. specialize (Hok Hw (status_updates cw row status ats_type error) b).
      rewrite E in Hok. discriminate Hok.
    + unfold status_updates, error_note, cell_name. rewrite !map_app. simpl.
      destruct (String.eqb_spec status "Applied") as [->|Hne]; [reflexivity|].
      intros H. exfalso.
      destruct H as [H|[H|[H|H]]]; try discriminate H.
      apply in_app_or in H. destruct H as [[]|H].
      destruct error as [e'|]; [destruct (truthy e')|]; simpl in H;
        try (destruct H as [H|[]]; discriminate H); destruct H.
    + intros ->. unfold status_updates. rewrite !map_app. simpl.
      right. right. right. now left.
Qed.

End StatusFacts.

(** ** Printing and parsing an age *)

Module PostedPrintFacts.
Import PyStr Py Sheet Jobs Utm.












End PostedPrintFacts.
